(** * Red-tag form: aggregation, trend classification and flat-file export

    A shallow embedding of the data-transforming parts of [script.js]
    ([performAIAnalysis], [formatTopItems] and the CSV text built by
    [exportToExcel]) together with the properties of the reporting module,
    and of the parts that act on the two globals [formDatabase] and
    [attachedFiles] ([loadStoredData], [handleFileSelect], [updateFileList],
    [removeFile], [saveForm], [clearForm], [updateAnalytics]) together with
    further properties of the script.

    The embedding follows the ECMAScript semantics of the constructs the
    script uses: plain objects used as frequency tables (own properties,
    properties inherited from [Object.prototype], the order in which
    [Object.entries] lists keys), the stable [Array.prototype.sort] with the
    comparator [b - a], the truthiness test behind [||], [Date] time values
    and the binary64 product [data.length * 0.6].

    Strings are sequences of bytes (the UTF-8 encoding of the script's
    strings); the comma, the semicolon and the line feed are single bytes
    that occur in no multi-byte sequence, so replacing and splitting act on
    bytes as they act on characters.  Counts and ids are integers in the
    range in which Numbers are exact. *)

From Stdlib Require Import Bool Arith ZArith NArith Lia List Ascii String.
From Stdlib Require Import Permutation Sorted DecimalString.
From Stdlib Require Import Floats.SpecFloat.
Import ListNotations.

Open Scope string_scope.
Open Scope list_scope.

(** * Part I: the program *)

(** ** JavaScript values and operations used by the script *)

Module JS.

(** A string-valued property of a record; [None] is an absent property
    (reading it yields [undefined]). *)
Definition field := option string.

(** ToBoolean on such a value: [undefined] and the empty string are falsy. *)
Definition truthy (v : field) : bool :=
  match v with
  | Some s => negb (s =? "")
  | None => false
  end.

(** [a || b] *)
Definition logical_or (a b : field) : field := if truthy a then a else b.

(** [a || ''] (always a string) *)
Definition or_empty (a : field) : string :=
  match logical_or a (Some "") with
  | Some s => s
  | None => ""
  end.

(** ToPropertyKey: the key under which [obj[v]] is looked up. *)
Definition ToPropertyKey (v : field) : string :=
  match v with
  | Some s => s
  | None => "undefined"
  end.

(** *** Array indices

    A property key is an array index when it is the canonical decimal
    numeral of an integer in the range 0 .. 2^32 - 2. *)

Definition is_digit (c : ascii) : bool :=
  (48 <=? nat_of_ascii c)%nat && (nat_of_ascii c <=? 57)%nat.

Fixpoint digits_value (acc : N) (s : string) : option N :=
  match s with
  | EmptyString => Some acc
  | String c s' =>
      if is_digit c
      then digits_value (acc * 10 + (N_of_ascii c - 48))%N s'
      else None
  end.

Definition array_index (s : string) : option N :=
  match s with
  | EmptyString => None
  | String "0" EmptyString => Some 0%N
  | String "0" _ => None
  | _ =>
      match digits_value 0 s with
      | Some n => if (n <=? 4294967294)%N then Some n else None
      | None => None
      end
  end.

Definition is_array_index (s : string) : bool :=
  match array_index s with Some _ => true | None => false end.

(** *** Values held by the counting objects

    A frequency table holds primitives only: a number, or (when the key
    collides with a function inherited from [Object.prototype]) a string.
    Such a string is the source text of a native function, or the text
    [[object Object]], followed by a run of the character 1; only its shape
    matters: it is never empty and never a numeric literal. *)

Inductive text :=
| SourceText (fname : string)   (* Function.prototype.toString of a built-in *)
| ObjectObject.                 (* Object.prototype.toString of an object *)

Inductive prim :=
| Num (n : nat)
| Text (base : text) (ones : nat).

(** What reading a property of a counting object can yield. *)
Inductive value :=
| Undefined
| Prim (p : prim)
| Builtin (fname : string)
| ObjectPrototype.

(** An ordinary object: its own properties in creation order. *)
Definition object := list (string * prim).

(** The properties every ordinary object inherits from [Object.prototype]
    (ECMA-262 20.1.3 and B.2.2); reading [__proto__] runs its getter, which
    returns the prototype itself. *)
Definition Object_prototype : list (string * value) :=
  [ ("constructor", Builtin "Object");
    ("hasOwnProperty", Builtin "hasOwnProperty");
    ("isPrototypeOf", Builtin "isPrototypeOf");
    ("propertyIsEnumerable", Builtin "propertyIsEnumerable");
    ("toLocaleString", Builtin "toLocaleString");
    ("toString", Builtin "toString");
    ("valueOf", Builtin "valueOf");
    ("__defineGetter__", Builtin "__defineGetter__");
    ("__defineSetter__", Builtin "__defineSetter__");
    ("__lookupGetter__", Builtin "__lookupGetter__");
    ("__lookupSetter__", Builtin "__lookupSetter__");
    ("__proto__", ObjectPrototype) ].

Fixpoint assoc {A : Type} (k : string) (l : list (string * A)) : option A :=
  match l with
  | [] => None
  | (k', v) :: l' => if k =? k' then Some v else assoc k l'
  end.

Definition inherited (k : string) : bool :=
  match assoc k Object_prototype with Some _ => true | None => false end.

(** [o[k]]: own property first, then the prototype. *)
Definition Get (o : object) (k : string) : value :=
  match assoc k o with
  | Some p => Prim p
  | None =>
      match assoc k Object_prototype with
      | Some v => v
      | None => Undefined
      end
  end.

(** [(v || 0) + 1].  A number stays a number; an object or function is
    truthy and is converted to its text by [+], which then appends "1". *)
Definition or_zero_plus_one (v : value) : prim :=
  match v with
  | Undefined => Num 1
  | Prim (Num n) => Num (n + 1)
  | Prim (Text b j) => Text b (j + 1)
  | Builtin f => Text (SourceText f) 1
  | ObjectPrototype => Text ObjectObject 1
  end.

(** Creating or updating an own data property: an existing key keeps its
    place, a new key is added last. *)
Fixpoint put (o : object) (k : string) (p : prim) : object :=
  match o with
  | [] => [(k, p)]
  | (k', p') :: o' =>
      if k =? k' then (k', p) :: o' else (k', p') :: put o' k p
  end.

(** [o[k] = p] for a primitive [p].  The key [__proto__] reaches the setter
    inherited from [Object.prototype], which ignores a value that is neither
    an object nor null; every other key creates or updates an own property
    (the inherited data properties are writable). *)
Definition Set_ (o : object) (k : string) (p : prim) : object :=
  if k =? "__proto__" then o else put o k p.

(** [Object.entries]: array-index keys in ascending numeric order, then the
    other keys in creation order. *)
Fixpoint insert_index (x : N * (string * prim))
    (l : list (N * (string * prim))) : list (N * (string * prim)) :=
  match l with
  | [] => [x]
  | y :: l' => if (fst x <=? fst y)%N then x :: l else y :: insert_index x l'
  end.

Definition index_part (o : object) : list (N * (string * prim)) :=
  flat_map (fun kv => match array_index (fst kv) with
                      | Some n => [(n, kv)]
                      | None => []
                      end) o.

Definition Object_entries (o : object) : list (string * prim) :=
  map snd (fold_right insert_index [] (index_part o))
  ++ filter (fun kv => negb (is_array_index (fst kv))) o.

(** *** Numbers and the sort *)

Inductive number := Finite (z : Z) | NaN.

Definition ToNumber (p : prim) : number :=
  match p with
  | Num n => Finite (Z.of_nat n)
  | Text _ _ => NaN
  end.

Definition minus (a b : number) : number :=
  match a, b with
  | Finite x, Finite y => Finite (x - y)
  | _, _ => NaN
  end.

(** The comparator [([,a], [,b]) => b - a]. *)
Definition comparefn (x y : string * prim) : number :=
  minus (ToNumber (snd y)) (ToNumber (snd x)).

(** SortCompare: a NaN outcome of the comparator counts as +0. *)
Definition SortCompare (x y : string * prim) : Z :=
  match comparefn x y with
  | Finite v => v
  | NaN => 0%Z
  end.

(** [Array.prototype.sort] is stable.  With a consistent comparator every
    stable sort returns the same array; it is written here as an insertion
    sort that keeps an element in front of the later elements it ties with.
    When the comparator is not consistent (a text count next to numbers
    makes it return NaN) the language leaves the order to the engine; the
    order this definition gives is then one admissible order and need not
    be the one of a given engine.  The properties below that speak of the
    order are about tables of numbers. *)
Fixpoint insert (x : string * prim) (l : list (string * prim))
  : list (string * prim) :=
  match l with
  | [] => [x]
  | y :: l' =>
      if (SortCompare x y >? 0)%Z then y :: insert x l' else x :: y :: l'
  end.

Definition sort (l : list (string * prim)) : list (string * prim) :=
  fold_right insert [] l.

(** [slice(0, n)] *)
Definition slice0 {A : Type} (n : nat) (l : list A) : list A := firstn n l.

(** Number-to-string conversion of an integer of absolute value below
    10^21, which is written in decimal digits (from 10^21 on the language
    switches to exponent notation; counts and clock readings lie far
    below). *)
Definition string_of_Z (z : Z) : string :=
  NilZero.string_of_int (Z.to_int z).

(** [Array.prototype.join] on strings. *)
Fixpoint join (sep : string) (l : list string) : string :=
  match l with
  | [] => ""
  | [s] => s
  | s :: l' => s ++ sep ++ join sep l'
  end.

End JS.

Import JS.

(** ** Data model *)

(** A submission as the script stores it: a plain object whose properties
    may be absent.  [id] is a number, the other properties read by the
    analysis and the export are strings. *)
Record SubmissionRecord := mkRecord {
  id : option Z;
  mfc : field;
  removalDate : field;
  date : field;
  taggedBy : field;
  itemType : field;
  partNumber : field;
  removedFrom : field;
  serviceCallId : field;
  reasonRemove : field;
  comments : field;
  timestamp : field;
  attachedFiles : list string
}.

(** An element [{ name, count }] of a ranked list. *)
Record Entry := mkEntry { name : string; count : prim }.

Record Trends := mkTrends {
  trend : string;
  recentCount : nat;
  totalCount : nat
}.

(** The object returned by [performAIAnalysis]. *)
Record Analytics := mkAnalytics {
  topParts : list Entry;
  topAssets : list Entry;
  trends : Trends;
  mfcStats : list Entry
}.

(** The own properties of that object, as the object literal lists them. *)
Inductive property :=
| Ranked (l : list Entry)
| TrendInfo (t : Trends).

Definition own_properties (a : Analytics) : list (string * property) :=
  [ ("topParts", Ranked (topParts a));
    ("topAssets", Ranked (topAssets a));
    ("trends", TrendInfo (trends a));
    ("mfcStats", Ranked (mfcStats a)) ].

(** ** The counting pass of [performAIAnalysis] *)

(** [counts[v] = (counts[v] || 0) + 1] *)
Definition increment (counts : object) (v : field) : object :=
  let k := ToPropertyKey v in
  Set_ counts k (or_zero_plus_one (Get counts k)).

Record Counters := mkCounters {
  partCounts : object;
  assetCounts : object;
  mfcCounts : object;
  reasonCounts : object
}.

(** The body of [data.forEach(record => ...)]. *)
Definition count_record (c : Counters) (record : SubmissionRecord) : Counters :=
  {| partCounts := increment (partCounts c) (partNumber record);
     assetCounts := increment (assetCounts c) (removedFrom record);
     mfcCounts := increment (mfcCounts c) (mfc record);
     reasonCounts := increment (reasonCounts c) (reasonRemove record) |}.

Definition count_all (data : list SubmissionRecord) : Counters :=
  fold_left count_record data
    {| partCounts := []; assetCounts := []; mfcCounts := [];
       reasonCounts := [] |}.

(** [([name, count]) => ({ name, count })] *)
Definition to_entry (kv : string * prim) : Entry :=
  {| name := fst kv; count := snd kv |}.

(** [Object.entries(counts).sort(([,a], [,b]) => b - a)] *)
Definition ranked (counts : object) : list (string * prim) :=
  sort (Object_entries counts).

(** ** The binary64 threshold [data.length * 0.6] *)

Definition double := spec_float.

(** An array length as a Number (exact: lengths are below 2^32). *)
Definition of_length (n : nat) : double :=
  binary_normalize 53 1024 (Z.of_nat n) 0 false.

(** The literal [0.6]: the double nearest to 3/5,
    5404319552844595 * 2^-53. *)
Definition zero_point_six : double :=
  S754_finite false 5404319552844595 (-53).

Definition double_mul (x y : double) : double := SFmul 53 1024 x y.

(** [x > y] on Numbers *)
Definition double_gt (x y : double) : bool := SFltb y x.

(** [recent > total * 0.6] *)
Definition above_threshold (recent total : nat) : bool :=
  double_gt (of_length recent) (double_mul (of_length total) zero_point_six).

(** ** [performAIAnalysis]; the clock, the time zone and date parsing are
    supplied by the host *)

Definition msPerDay : Z := 86400000.

Definition sentinel : Entry := {| name := "No data yet"; count := Num 0 |}.

Section Host.

(** [Date.parse]: the time value (milliseconds since the epoch, UTC) of a
    date string, [None] when the string is not a date (the time value NaN).
    Which strings beyond the ISO format are accepted depends on the host. *)
Variable Date_parse : string -> option Z.

(** [LocalTZA(t, isUTC)]: the offset of local time from UTC, in
    milliseconds. *)
Variable LocalTZA : Z -> bool -> Z.

(** [new Date(v)] for a string or [undefined]: its time value. *)
Definition new_Date (v : field) : option Z :=
  match v with
  | Some s => Date_parse s
  | None => None
  end.

(** [const d = new Date(); d.setDate(d.getDate() - 30)] at time [now].
    [setDate] rebuilds the local time from the day number
    [MakeDay(year, month, getDate() - 30)], which is the local day of [now]
    less 30, and the unchanged time within the day; the result is converted
    back to UTC. *)
Definition thirtyDaysAgo (now : Z) : Z :=
  let local := (now + LocalTZA now true)%Z in
  let moved := (local - 30 * msPerDay)%Z in
  (moved - LocalTZA moved false)%Z.

(** [recordDate >= thirtyDaysAgo]: a comparison of time values, false when
    the left one is NaN. *)
Definition date_ge (recordDate : option Z) (t : Z) : bool :=
  match recordDate with
  | Some d => (t <=? d)%Z
  | None => false
  end.

(** The callback of [data.filter] that selects the recent records. *)
Definition is_recent (now : Z) (record : SubmissionRecord) : bool :=
  let recordDate := new_Date (logical_or (date record) (removalDate record)) in
  date_ge recordDate (thirtyDaysAgo now).

Definition performAIAnalysis (now : Z) (data : list SubmissionRecord)
  : Analytics :=
  if (List.length data =? 0)%nat then
    {| topParts := [sentinel];
       topAssets := [sentinel];
       trends := {| trend := "Insufficient data";
                    recentCount := 0; totalCount := 0 |};
       mfcStats := [sentinel] |}
  else
    let c := count_all data in
    let topParts := map to_entry (slice0 5 (ranked (partCounts c))) in
    let topAssets := map to_entry (slice0 5 (ranked (assetCounts c))) in
    let mfcStats := map to_entry (ranked (mfcCounts c)) in
    let recentData := filter (is_recent now) data in
    let trends :=
      {| trend := if above_threshold (List.length recentData) (List.length data)
                  then "Increasing failure rate"
                  else "Stable failure rate";
         recentCount := List.length recentData;
         totalCount := List.length data |} in
    {| topParts := topParts; topAssets := topAssets;
       trends := trends; mfcStats := mfcStats |}.

End Host.

(** ** [formatTopItems] *)

Definition dquote : string := String (ascii_of_nat 34) "".

Definition LF : ascii := ascii_of_nat 10.

Definition newline : string := String LF "".

(** [items[0].count === 0] *)
Definition strict_eq_zero (p : prim) : bool :=
  match p with
  | Num 0 => true
  | _ => false
  end.

(** The guard [items.length === 0 || items[0].count === 0]. *)
Definition no_data (items : list Entry) : bool :=
  match items with
  | [] => true
  | item0 :: _ => strict_eq_zero (count item0)
  end.

Fixpoint mapi_from {A B : Type} (i : nat) (f : A -> nat -> B) (l : list A)
  : list B :=
  match l with
  | [] => []
  | x :: l' => f x i :: mapi_from (S i) f l'
  end.

(** [items.map((item, index) => ...)] *)
Definition mapi {A B : Type} (f : A -> nat -> B) (l : list A) : list B :=
  mapi_from 0 f l.

Fixpoint ones (n : nat) : string :=
  match n with
  | O => ""
  | S n' => "1" ++ ones n'
  end.

Section Render.

(** The text a host prints for a built-in function (its exact spacing is
    implementation-defined). *)
Variable native_source : string -> string.

Definition text_string (b : text) : string :=
  match b with
  | SourceText f => native_source f
  | ObjectObject => "[object Object]"
  end.

(** The string a template literal interpolates for a count. *)
Definition ToString (p : prim) : string :=
  match p with
  | Num n => string_of_Z (Z.of_nat n)
  | Text b j => text_string b ++ ones j
  end.

Definition item_html (item : Entry) (index : nat) : string :=
  "<div style=" ++ dquote ++ "margin: 5px 0; padding: 8px; background: "
  ++ (if (index =? 0)%nat then "#e3f2fd" else "#f5f5f5")
  ++ "; border-radius: 5px; border-left: 3px solid "
  ++ (if (index =? 0)%nat then "#1976d2" else "#ddd")
  ++ ";" ++ dquote ++ ">" ++ newline
  ++ "            <strong>" ++ name item ++ "</strong><br>" ++ newline
  ++ "            <small>" ++ ToString (count item) ++ " occurrences</small>"
  ++ newline
  ++ "        </div>".

Definition no_data_html : string :=
  "<em style=" ++ dquote ++ "color: #666;" ++ dquote
  ++ ">No data available</em>".

Definition formatTopItems (items : list Entry) : string :=
  if no_data items then no_data_html
  else join "" (mapi item_html items).

End Render.

(** ** The CSV text built by [exportToExcel] *)

Definition headers : list string :=
  [ "ID"; "MFC"; "Date"; "Tagged By"; "Item Type";
    "Part Number"; "Asset SN"; "Service Call ID"; "Reason"; "Comments" ].

(** [s.replace(/,/g, ';')] *)
Fixpoint replace_commas (s : string) : string :=
  match s with
  | EmptyString => EmptyString
  | String c s' =>
      String (if Ascii.eqb c "," then ";"%char else c) (replace_commas s')
  end.

(** [row.id || ''] as [join] prints it: 0 and an absent id are falsy. *)
Definition id_cell (i : option Z) : string :=
  match i with
  | Some z => if (z =? 0)%Z then "" else string_of_Z z
  | None => ""
  end.

(** The array built for one record inside [formDatabase.map]. *)
Definition row_cells (row : SubmissionRecord) : list string :=
  [ id_cell (id row);
    or_empty (mfc row);
    or_empty (logical_or (removalDate row) (date row));
    or_empty (taggedBy row);
    or_empty (itemType row);
    or_empty (partNumber row);
    or_empty (removedFrom row);
    or_empty (serviceCallId row);
    or_empty (reasonRemove row);
    replace_commas (or_empty (comments row)) ].

Definition csv_line (row : SubmissionRecord) : string :=
  join "," (row_cells row).

Definition csvContent (formDatabase : list SubmissionRecord) : string :=
  join newline (join "," headers :: map csv_line formDatabase).

(** [text.split('\n')] *)
Fixpoint split_lines_from (cur : string) (s : string) : list string :=
  match s with
  | EmptyString => [cur]
  | String c s' =>
      if Ascii.eqb c LF then cur :: split_lines_from "" s'
      else split_lines_from (cur ++ String c "") s'
  end.

Definition split_lines (s : string) : list string := split_lines_from "" s.

(** [s.includes(sub)] *)
Fixpoint includes (sub s : string) : bool :=
  String.prefix sub s
  || match s with
     | EmptyString => false
     | String _ s' => includes sub s'
     end.

(** ** A concrete host, the mock data of [loadStoredData] and sample
    submissions *)

Module Host.

(** Days from 1970-01-01 to the civil date [y]-[m]-[d] (proleptic
    Gregorian calendar). *)
Definition days_from_civil (y m d : Z) : Z :=
  let y' := (if m <=? 2 then y - 1 else y)%Z in
  let era := (y' / 400)%Z in
  let yoe := (y' - era * 400)%Z in
  let mp := ((m + 9) mod 12)%Z in
  let doy := ((153 * mp + 2) / 5 + d - 1)%Z in
  let doe := (yoe * 365 + yoe / 4 - yoe / 100 + doy)%Z in
  (era * 146097 + doe - 719468)%Z.

Definition days_in_month (y m : Z) : Z :=
  if (m =? 2)%Z then
    if ((y mod 4 =? 0) && (negb (y mod 100 =? 0) || (y mod 400 =? 0)))%Z
    then 29 else 28
  else if ((m =? 4) || (m =? 6) || (m =? 9) || (m =? 11))%Z then 30
  else 31.

Definition digit (c : ascii) : option Z :=
  if is_digit c then Some (Z.of_nat (nat_of_ascii c) - 48)%Z else None.

Definition number_of (cs : list ascii) : option Z :=
  fold_left (fun acc c =>
               match acc, digit c with
               | Some a, Some v => Some (a * 10 + v)%Z
               | _, _ => None
               end) cs (Some 0%Z).

(** A date parser that accepts exactly the valid calendar dates in the ISO
    date-only form [YYYY-MM-DD] (read as midnight UTC) and rejects every
    other string.  Engines agree with it on these dates; some of them also
    read other forms, or a day past the end of the month as a day of the
    next month. *)
Definition iso_date_parse (s : string) : option Z :=
  match list_ascii_of_string s with
  | [y1; y2; y3; y4; "-"%char; m1; m2; "-"%char; d1; d2] =>
      match number_of [y1; y2; y3; y4], number_of [m1; m2],
            number_of [d1; d2] with
      | Some y, Some m, Some d =>
          if ((1 <=? m) && (m <=? 12) && (1 <=? d)
              && (d <=? days_in_month y m))%Z
          then Some (days_from_civil y m d * msPerDay)%Z
          else None
      | _, _, _ => None
      end
  | _ => None
  end.

(** A host whose local time is UTC. *)
Definition utc (t : Z) (isUTC : bool) : Z := 0%Z.

(** The text V8 prints for a built-in function. *)
Definition v8_source (fname : string) : string :=
  "function " ++ fname ++ "() { [native code] }".

End Host.

(** A record of the mock data: id, site, part number, asset, reason and
    the legacy [date]. *)
Definition mock (i : Z) (m p a r d : string) : SubmissionRecord :=
  {| id := Some i; mfc := Some m; removalDate := None; date := Some d;
     taggedBy := None; itemType := None; partNumber := Some p;
     removedFrom := Some a; serviceCallId := None; reasonRemove := Some r;
     comments := None; timestamp := None; attachedFiles := [] |}.

Definition mockData : list SubmissionRecord :=
  [ mock 1 "HLN01" "MOT-001" "LR0000" "Defected" "2024-01-15";
    mock 2 "EMK01" "PCB-445" "RB-2024-002" "Scrap" "2024-01-20";
    mock 3 "BS01" "MOT-001" "RB-2024-003" "Defected" "2024-02-01";
    mock 4 "DAL01" "SEN-220" "RB-2024-001" "Required For R&D" "2024-02-10";
    mock 5 "NYC01" "PCB-445" "RB-2024-004" "Defected" "2024-02-15" ].

(** 2024-02-15T12:26:40Z *)
Definition mid_february_2024 : Z := 1708000000000.

(** A record that carries both properties: removed five days before the
    evaluation time, with a legacy [date] four years old. *)
Definition both_dates_record : SubmissionRecord :=
  {| id := Some 6%Z; mfc := Some "HLN01";
     removalDate := Some "2024-02-10"; date := Some "2020-01-01";
     taggedBy := Some "J. Doe"; itemType := Some "Motor";
     partNumber := Some "MOT-001"; removedFrom := Some "LR0000";
     serviceCallId := None; reasonRemove := Some "Defected";
     comments := None; timestamp := None; attachedFiles := [] |}.

(** A record whose [removalDate] is not a date, with a legacy [date] five
    days before the evaluation time. *)
Definition garbled_removal_record : SubmissionRecord :=
  {| id := Some 8%Z; mfc := Some "HLN01";
     removalDate := Some "not a date"; date := Some "2024-02-10";
     taggedBy := Some "J. Doe"; itemType := Some "Motor";
     partNumber := Some "MOT-001"; removedFrom := Some "LR0000";
     serviceCallId := None; reasonRemove := Some "Defected";
     comments := None; timestamp := None; attachedFiles := [] |}.

(** A submission removed on the day [d]. *)
Definition removed_on (d : string) : SubmissionRecord :=
  {| id := Some 10%Z; mfc := Some "HLN01";
     removalDate := Some d; date := None;
     taggedBy := Some "J. Doe"; itemType := Some "Motor";
     partNumber := Some "MOT-001"; removedFrom := Some "LR0000";
     serviceCallId := None; reasonRemove := Some "Defected";
     comments := None; timestamp := None; attachedFiles := [] |}.

(** Ten submissions of which [recent] were removed five days before
    [mid_february_2024] and the others eight months before. *)
Definition recent_of_ten (recent : nat) : list SubmissionRecord :=
  repeat (removed_on "2024-02-10") recent
  ++ repeat (removed_on "2023-06-01") (10 - recent).

(** A record that carries neither [date] nor [removalDate]. *)
Definition undated_record : SubmissionRecord :=
  {| id := Some 8%Z; mfc := Some "HLN01"; removalDate := None; date := None;
     taggedBy := Some "J. Doe"; itemType := Some "Motor";
     partNumber := Some "MOT-001"; removedFrom := Some "LR0000";
     serviceCallId := None; reasonRemove := Some "Defected";
     comments := None; timestamp := None; attachedFiles := [] |}.



(** A submission whose part number, asset and site read [__proto__]. *)
Definition proto_record : SubmissionRecord :=
  {| id := Some 7%Z; mfc := Some "__proto__";
     removalDate := Some "2024-02-10"; date := None;
     taggedBy := Some "J. Doe"; itemType := Some "Motor";
     partNumber := Some "__proto__"; removedFrom := Some "__proto__";
     serviceCallId := None; reasonRemove := Some "Defected";
     comments := None; timestamp := None; attachedFiles := [] |}.

(** A submission whose part number, asset and site read [constructor]. *)
Definition constructor_record : SubmissionRecord :=
  {| id := Some 9%Z; mfc := Some "constructor";
     removalDate := Some "2024-02-10"; date := None;
     taggedBy := Some "J. Doe"; itemType := Some "Motor";
     partNumber := Some "constructor"; removedFrom := Some "constructor";
     serviceCallId := None; reasonRemove := Some "Defected";
     comments := None; timestamp := None; attachedFiles := [] |}.

(** A submission with the comment [c]. *)
Definition commented (i : Z) (c : field) : SubmissionRecord :=
  {| id := Some i; mfc := Some "HLN01";
     removalDate := Some "2024-02-10"; date := None;
     taggedBy := Some "J. Doe"; itemType := Some "Motor";
     partNumber := Some "MOT-001"; removedFrom := Some "LR0000";
     serviceCallId := None; reasonRemove := Some "Defected";
     comments := c; timestamp := None; attachedFiles := [] |}.

(** Three submissions: one comment holds a comma, another one holds a line
    break. *)
Definition multiline_snapshot : list SubmissionRecord :=
  [ commented 1 (Some "ok, replaced");
    commented 2 (Some ("bearing worn" ++ newline ++ "see photo")%string);
    commented 3 None ].

(** Three submissions without a line break in any property. *)
Definition comma_snapshot : list SubmissionRecord :=
  [ commented 1 (Some "ok, replaced");
    commented 2 (Some "bearing worn; see photo");
    commented 3 None ].

(** ** Attached files, form validation and [saveForm] *)

Module App.

(** A [File] object, by its [name] (the only property the script reads). *)
Definition file := string.

(** The two globals of the script: [formDatabase], and [attachedFiles]
    (here [attached]; the records have a property of that name). *)
Record State := mkState {
  formDatabase : list SubmissionRecord;
  attached : list file
}.

(** The globals as the script declares them. *)
Definition initial : State := {| formDatabase := []; attached := [] |}.

(** [loadStoredData]: the database becomes the mock data. *)
Definition loadStoredData (st : State) : State :=
  {| formDatabase := mockData; attached := attached st |}.

(** [handleFileSelect]: [attachedFiles = attachedFiles.concat(files)]. *)
Definition handleFileSelect (files : list file) (st : State) : State :=
  {| formDatabase := formDatabase st; attached := attached st ++ files |}.

(** [array.splice(start, deleteCount)] for integer arguments: what is left
    in the array. *)
Definition splice {A : Type} (start deleteCount : Z) (l : list A) : list A :=
  let len := Z.of_nat (List.length l) in
  let actualStart :=
    (if start <? 0 then Z.max (len + start) 0 else Z.min start len)%Z in
  let actualDeleteCount :=
    Z.min (Z.max deleteCount 0) (len - actualStart) in
  firstn (Z.to_nat actualStart) l
  ++ skipn (Z.to_nat (actualStart + actualDeleteCount)) l.

(** [removeFile]: [attachedFiles.splice(index, 1)]. *)
Definition removeFile (index : Z) (st : State) : State :=
  {| formDatabase := formDatabase st; attached := splice index 1 (attached st) |}.

(** [clearForm], as far as the globals go: [attachedFiles = []]. *)
Definition clearForm (st : State) : State :=
  {| formDatabase := formDatabase st; attached := [] |}.

(** [data[field]] on the object built from the form, for the property
    names of a submission. *)
Definition property_of (data : SubmissionRecord) (field : string)
  : JS.field :=
  if field =? "mfc" then mfc data
  else if field =? "removalDate" then removalDate data
  else if field =? "date" then date data
  else if field =? "taggedBy" then taggedBy data
  else if field =? "itemType" then itemType data
  else if field =? "partNumber" then partNumber data
  else if field =? "removedFrom" then removedFrom data
  else if field =? "serviceCallId" then serviceCallId data
  else if field =? "reasonRemove" then reasonRemove data
  else if field =? "comments" then comments data
  else if field =? "timestamp" then timestamp data
  else None.

Definition requiredFields : list string :=
  [ "mfc"; "removalDate"; "taggedBy"; "itemType"; "partNumber";
    "removedFrom"; "reasonRemove" ].

(** [requiredFields.filter(field => !data[field])] *)
Definition missingFields (data : SubmissionRecord) : list string :=
  filter (fun field => negb (truthy (property_of data field))) requiredFields.

(** The metadata [saveForm] adds to the form object: [Date.now()] as id,
    the ISO text of the time as timestamp, the names of the attached
    files. *)
Definition with_metadata (now : Z) (stamp : string) (files : list file)
    (data : SubmissionRecord) : SubmissionRecord :=
  {| id := Some now;
     mfc := mfc data;
     removalDate := removalDate data;
     date := date data;
     taggedBy := taggedBy data;
     itemType := itemType data;
     partNumber := partNumber data;
     removedFrom := removedFrom data;
     serviceCallId := serviceCallId data;
     reasonRemove := reasonRemove data;
     comments := comments data;
     timestamp := Some stamp;
     attachedFiles := map (fun f => f) files |}.

(** The arguments of a call of [showMessage(message, type)]. *)
Record Message := mkMessage { message : string; type : string }.

(** The script calls [showMessage], [formatTrends] and [formatMFCStats]
    and declares none of them.  How their calls end during one run of a
    handler is a parameter: [true] when the call returns, [false] when it
    throws, as it does when the function is declared nowhere.  They are
    taken not to assign [formDatabase] or [attachedFiles]. *)
Record Callees := mkCallees {
  showMessage_returns : bool;
  formatTrends_returns : bool;
  formatMFCStats_returns : bool
}.

(** How a handler ends: after a call of [showMessage] that returned, or
    with an exception that no handler of the script catches. *)
Inductive Outcome :=
| Shown (shown : Message)
| Thrown.

(** The call [updateAnalytics()] returns when the two formatters it calls
    after it has written the first two panels return, [formatTrends]
    first. *)
Definition updateAnalytics_returns (callees : Callees) : bool :=
  formatTrends_returns callees && formatMFCStats_returns callees.

(** The call [showMessage(message, type)] as the last statement of a
    handler. *)
Definition showMessage (callees : Callees) (text kind : string) : Outcome :=
  if showMessage_returns callees
  then Shown {| message := text; type := kind |}
  else Thrown.

(** [saveForm] on the form object [data], at clock reading [now] with ISO
    text [stamp]: the globals when the handler ends, and how it ends.  An
    exception leaves the handler at once, with the globals as they are at
    that point.  The console log, the Slack request and the writes to the
    page are not part of the state; the functions of the host ([document],
    [FormData], [console], [fetch]) are taken to return. *)
Definition saveForm (callees : Callees) (now : Z) (stamp : string)
    (data : SubmissionRecord) (st : State) : State * Outcome :=
  let missing := missingFields data in
  if (0 <? List.length missing)%nat then
    (st,
     showMessage callees
       ("Please fill in all required fields: " ++ join ", " missing) "error")
  else
    let data := with_metadata now stamp (attached st) data in
    let st := {| formDatabase := formDatabase st ++ [data];
                 attached := attached st |} in
    if updateAnalytics_returns callees then
      let st := clearForm st in
      (st,
       showMessage callees
         "Form saved successfully! Backup sent to Slack channel." "success")
    else (st, Thrown).

(** What the user does after the page has loaded. *)
Inductive event :=
| FilesSelected (files : list file)
| RemoveFile (index : Z)
| SaveForm (callees : Callees) (now : Z) (stamp : string)
    (data : SubmissionRecord)
| ClearForm.

Definition handle (st : State) (e : event) : State :=
  match e with
  | FilesSelected files => handleFileSelect files st
  | RemoveFile index => removeFile index st
  | SaveForm callees now stamp data =>
      fst (saveForm callees now stamp data st)
  | ClearForm => clearForm st
  end.

Definition run (events : list event) (st : State) : State :=
  fold_left handle events st.

(** The globals once the [DOMContentLoaded] handler has run. *)
Definition loaded : State := loadStoredData initial.

(** A record has what the export and the analysis read: site, part
    number, asset and reason, and [removalDate] or its alias [date]. *)
Definition complete (record : SubmissionRecord) : bool :=
  truthy (mfc record) && truthy (partNumber record)
  && truthy (removedFrom record) && truthy (reasonRemove record)
  && truthy (logical_or (removalDate record) (date record)).

End App.

(** ** [updateFileList] *)

(** The sign on the remove button (U+00D7), as the two bytes of its UTF-8
    encoding. *)
Definition times : string :=
  String (ascii_of_nat 195) (String (ascii_of_nat 151) "").

(** The markup of one attached file. *)
Definition chip (file : App.file) (index : nat) : string :=
  "<span style=" ++ dquote
  ++ "display: inline-block; margin: 5px; padding: 5px 10px; background: #e3f2fd; border-radius: 15px; font-size: 14px; border: 1px solid #1976d2;"
  ++ dquote ++ ">" ++ newline
  ++ "                " ++ file ++ " " ++ newline
  ++ "                <button onclick=" ++ dquote ++ "removeFile("
  ++ string_of_Z (Z.of_nat index) ++ ")" ++ dquote ++ " style=" ++ dquote
  ++ "border: none; background: none; color: #d32f2f; cursor: pointer; font-weight: bold;"
  ++ dquote ++ ">" ++ times ++ "</button>" ++ newline
  ++ "            </span>".

(** What [updateFileList] writes into the [fileList] element. *)
Definition updateFileList (st : App.State) : string :=
  if (List.length (App.attached st) =? 0)%nat then ""
  else "<strong>Attached Files:</strong><br>"
       ++ join "" (mapi chip (App.attached st)).

(** ** [updateAnalytics] *)

(** The two panels of the dashboard that [formatTopItems] fills; the
    formatters of the other two panels are not part of the script file. *)
Record Panels := mkPanels { topParts_panel : string; topAssets_panel : string }.

Section Dashboard.

Variable Date_parse : string -> option Z.
Variable LocalTZA : Z -> bool -> Z.
Variable native_source : string -> string.

Definition updateAnalytics (now : Z) (st : App.State) : Panels :=
  let analytics :=
    performAIAnalysis Date_parse LocalTZA now (App.formDatabase st) in
  {| topParts_panel := formatTopItems native_source (topParts analytics);
     topAssets_panel := formatTopItems native_source (topAssets analytics) |}.

End Dashboard.

(** * Part II: notions used to state the properties *)

(** The keys under which the records of a snapshot are counted. *)
Definition keys_of (selector : SubmissionRecord -> field)
    (data : list SubmissionRecord) : list string :=
  map (fun record => ToPropertyKey (selector record)) data.

(** Position of the first occurrence of [k] ([length l] when absent). *)
Fixpoint first_index (k : string) (l : list string) : nat :=
  match l with
  | [] => 0
  | k' :: l' => if k =? k' then 0 else S (first_index k l')
  end.

(** Number of distinct keys. *)
Definition distinct (l : list string) : nat :=
  List.length (nodup string_dec l).

(** Keys that do not name a property of [Object.prototype]. *)
Definition plain (k : string) : bool := negb (inherited k).

(** The numeric count of an entry (0 for a count that is not a number). *)
Definition weight (p : prim) : nat :=
  match p with
  | Num n => n
  | Text _ _ => 0
  end.

Definition count_sum (l : list Entry) : nat :=
  list_sum (map (fun e => weight (count e)) l).

Definition total (o : object) : nat :=
  list_sum (map (fun kv => weight (snd kv)) o).

(** [x] occurs in [l] at a position before an occurrence of [y]. *)
Definition before {A : Type} (x y : A) (l : list A) : Prop :=
  exists l1 l2 l3, l = l1 ++ x :: l2 ++ y :: l3.

(** One counting step on a key, and a run of steps. *)
Definition step (o : object) (k : string) : object :=
  Set_ o k (or_zero_plus_one (Get o k)).

Definition tally (ks : list string) (o : object) : object :=
  fold_left step ks o.

Definition keys (o : object) : list string := map fst o.

(** A table all of whose counts are positive numbers. *)
Definition positive_entry (kv : string * prim) : Prop :=
  exists n, snd kv = Num (S n).

Definition numeric (o : object) : Prop := Forall positive_entry o.

(** The keys of a table are its distinct keys in order of first occurrence. *)
Definition first_occurrence_order (o : object) (seen : list string) : Prop :=
  NoDup (keys o)
  /\ (forall k, In k (keys o) <-> In k seen)
  /\ (forall a b, before a b (keys o) ->
                  first_index a seen < first_index b seen).

Definition non_index (kv : string * prim) : bool :=
  negb (is_array_index (fst kv)).



(** No character of [s] is a line feed. *)
Fixpoint no_newline (s : string) : bool :=
  match s with
  | EmptyString => true
  | String c s' => negb (Ascii.eqb c LF) && no_newline s'
  end.

(** The text of a property, empty when the property is absent. *)
Definition raw (v : field) : string :=
  match v with
  | Some s => s
  | None => ""
  end.

(** The dimensions the script tallies. *)
Inductive dimension := PartNumberDim | AssetDim | MfcDim | ReasonDim.

(** Follows the spec's words: the result holds a list with the single
    sentinel entry for each of the four dimensions, that is, four distinct
    properties of the result hold such a list. *)
Definition sentinel_for_each_dimension (a : Analytics) : Prop :=
  exists property_of : dimension -> string,
    (forall d d', property_of d = property_of d' -> d = d')
    /\ forall d,
         assoc (property_of d) (own_properties a) = Some (Ranked [sentinel]).

(** Follows the spec's words: the effective date is [removalDate], with
    [date] as the legacy alias. *)
Definition effective_date_spec (record : SubmissionRecord) : field :=
  logical_or (removalDate record) (date record).

(** The three ranked lists of the result, the property each one counts and
    the table it is read from. *)
Inductive ranking := TopParts | TopAssets | MfcStats.

Definition selector_of (rk : ranking) : SubmissionRecord -> field :=
  match rk with
  | TopParts => partNumber
  | TopAssets => removedFrom
  | MfcStats => mfc
  end.

Definition list_of (rk : ranking) (a : Analytics) : list Entry :=
  match rk with
  | TopParts => topParts a
  | TopAssets => topAssets a
  | MfcStats => mfcStats a
  end.

(** [None]: the list is not cut. *)
Definition limit_of (rk : ranking) : option nat :=
  match rk with
  | TopParts => Some 5
  | TopAssets => Some 5
  | MfcStats => None
  end.




(** The state of the right shift that rounding performs, after [k] one-bit
    steps on the mantissa [P]: the quotient, and how the bits shifted out
    compare with half a unit. *)
Definition shr_inv (P : Z) (k : nat) (rec : shr_record) : Prop :=
  (0 <= shr_m rec)%Z
  /\ exists rem,
       (0 <= rem < 2 ^ Z.of_nat k)%Z
       /\ P = (shr_m rec * 2 ^ Z.of_nat k + rem)%Z
       /\ match shr_r rec, shr_s rec with
          | false, false => rem = 0%Z
          | false, true => (0 < 2 * rem < 2 ^ Z.of_nat k)%Z
          | true, false => (2 * rem = 2 ^ Z.of_nat k)%Z
          | true, true => (2 ^ Z.of_nat k < 2 * rem)%Z
          end.

(** The second half of [binary_round_aux]: renormalising the rounded
    mantissa. *)
Definition finish (sx : bool) (m' e' : Z) : spec_float :=
  let '(mrs'', e'') := shr_fexp 53 1024 m' e' loc_Exact in
  match shr_m mrs'' with
  | Z0 => S754_zero sx
  | Zpos m =>
      if (e'' <=? 1024 - 53)%Z then S754_finite sx m e''
      else S754_infinity sx
  | _ => S754_nan
  end.

(** ** Notions for the further properties *)

(** [text.split(sep)] for a one-character separator. *)
Fixpoint split_from (sep : ascii) (cur : string) (s : string) : list string :=
  match s with
  | EmptyString => [cur]
  | String c s' =>
      if Ascii.eqb c sep then cur :: split_from sep "" s'
      else split_from sep (cur ++ String c "") s'
  end.

Definition split (sep : ascii) (s : string) : list string :=
  split_from sep "" s.

(** Number of occurrences of a character. *)
Fixpoint count_char (c : ascii) (s : string) : nat :=
  match s with
  | EmptyString => 0
  | String c' s' => (if Ascii.eqb c' c then 1 else 0) + count_char c s'
  end.

(** The count recorded for a key in a table (0 when there is none). *)
Definition count_in (o : object) (k : string) : nat :=
  match assoc k o with
  | Some p => weight p
  | None => 0
  end.

(** Descending order of counts. *)
Definition count_ge (x y : string * prim) : Prop :=
  weight (snd y) <= weight (snd x).

(** Two records agree on what the analysis reads. *)
Definition same_analysis_input (r r' : SubmissionRecord) : Prop :=
  partNumber r = partNumber r'
  /\ removedFrom r = removedFrom r'
  /\ mfc r = mfc r'
  /\ date r = date r'
  /\ removalDate r = removalDate r'.

(** An absent property replaced by the text [undefined]. *)
Definition spelled_out (v : field) : field := Some (ToPropertyKey v).

Definition with_undefined_spelled_out (r : SubmissionRecord)
  : SubmissionRecord :=
  {| id := id r;
     mfc := spelled_out (mfc r);
     removalDate := removalDate r;
     date := date r;
     taggedBy := taggedBy r;
     itemType := itemType r;
     partNumber := spelled_out (partNumber r);
     removedFrom := spelled_out (removedFrom r);
     serviceCallId := serviceCallId r;
     reasonRemove := reasonRemove r;
     comments := comments r;
     timestamp := timestamp r;
     attachedFiles := attachedFiles r |}.

(** The highlighted first block and the plain later blocks of
    [formatTopItems]. *)
Definition first_block (native_source : string -> string) (item : Entry)
  : string := item_html native_source item 0.

Definition later_block (native_source : string -> string) (item : Entry)
  : string := item_html native_source item 1.

(** The opening tag of a block of [formatTopItems], highlighted or not. *)
Definition opening (highlighted : bool) : string :=
  "<div style=" ++ dquote ++ "margin: 5px 0; padding: 8px; background: "
  ++ (if highlighted then "#e3f2fd" else "#f5f5f5")
  ++ "; border-radius: 5px; border-left: 3px solid "
  ++ (if highlighted then "#1976d2" else "#ddd")
  ++ ";" ++ dquote ++ ">".

(** Commas in the texts of a list of properties. *)
Definition commas_in (fields : list field) : nat :=
  list_sum (map (fun v => count_char "," (raw v)) fields).

(** A cell that holds neither a comma nor a line feed. *)
Definition plain_cell (s : string) : bool :=
  (count_char "," s =? 0)%nat && (count_char LF s =? 0)%nat.

(** The number of [SaveForm] events of a sequence. *)
Definition saves (events : list App.event) : nat :=
  List.length
    (filter
       (fun e => match e with App.SaveForm _ _ _ _ => true | _ => false end)
       events).

(** The markup starts with the highlighted block of a most frequent key of
    [ks], with the number of its occurrences as count. *)
Definition highlights_a_most_frequent (native_source : string -> string)
    (ks : list string) (html : string) : Prop :=
  exists k post,
    html
    = (first_block native_source
         {| name := k; count := Num (count_occ string_dec ks k) |}
       ++ post)%string
    /\ In k ks
    /\ forall k', count_occ string_dec ks k' <= count_occ string_dec ks k.

(** Line feeds in the texts of a list of properties. *)
Definition line_feeds_in (fields : list field) : nat :=
  list_sum (map (fun v => count_char LF (raw v)) fields).

(** The properties of a record that the export prints as text. *)
Definition exported_texts (row : SubmissionRecord) : list field :=
  [ mfc row; logical_or (removalDate row) (date row); taggedBy row;
    itemType row; partNumber row; removedFrom row; serviceCallId row;
    reasonRemove row; comments row ].

(** Ten texts written one after the other, with a comma between them. *)
Definition ten_columns (c0 c1 c2 c3 c4 c5 c6 c7 c8 c9 : string) : string :=
  c0 ++ "," ++ c1 ++ "," ++ c2 ++ "," ++ c3 ++ "," ++ c4 ++ ","
  ++ c5 ++ "," ++ c6 ++ "," ++ c7 ++ "," ++ c8 ++ "," ++ c9.

(** The lines of the records of a document, each one after a line feed. *)
Fixpoint record_lines (line : SubmissionRecord -> string)
    (rows : list SubmissionRecord) : string :=
  match rows with
  | [] => ""
  | row :: rows' => newline ++ line row ++ record_lines line rows'
  end.

(** The cell at position [i] of the array built for a record. *)
Definition cell (i : nat) (row : SubmissionRecord) : string :=
  nth i (row_cells row) "undefined".

(** * Part III: lemmas *)

(** ** Lists *)

Section ListFacts.

Context {A : Type}.

Lemma before_of_positions (l : list A) i j x y :
  i < j -> nth_error l i = Some x -> nth_error l j = Some y -> before x y l.
Proof.
  intros Hij Hi Hj.
  destruct (nth_error_split l i Hi) as (l1 & r & -> & Hlen).
  rewrite nth_error_app2 in Hj by lia.
  replace (j - List.length l1) with (S (j - i - 1)) in Hj by lia.
  simpl in Hj.
  destruct (nth_error_split r _ Hj) as (l2 & l3 & -> & _).
  now exists l1, l2, l3.
Qed.

Lemma before_In (x y : A) l : before x y l -> In x l /\ In y l.
Proof.
  intros (l1 & l2 & l3 & ->); split.
  - apply in_or_app; right; now left.
  - apply in_or_app; right; right; apply in_or_app; right; now left.
Qed.





Lemma before_snoc (x y k : A) l :
  before x y (l ++ [k]) -> before x y l \/ (In x l /\ y = k).
Proof.
  intros (l1 & l2 & l3 & H).
  destruct l3 as [|z l3 _] using rev_ind.
  - right.
    replace (l1 ++ x :: l2 ++ [y]) with ((l1 ++ x :: l2) ++ [y]) in H
      by now rewrite <- app_assoc.
    apply app_inj_tail in H as [-> ->]; split; auto.
    apply in_or_app; right; now left.
  - left.
    replace (l1 ++ x :: l2 ++ y :: l3 ++ [z])
      with ((l1 ++ x :: l2 ++ y :: l3) ++ [z]) in H.
    + apply app_inj_tail in H as [-> _]; now exists l1, l2, l3.
    + rewrite <- app_assoc; simpl; f_equal; f_equal.
      now rewrite <- app_assoc.
Qed.

Lemma filter_nil_of_forall (p : A -> bool) l :
  (forall x, In x l -> p x = false) -> filter p l = [].
Proof.
  induction l as [|z l IH]; intros H; simpl; auto.
  rewrite (H z) by now left. apply IH; intros; apply H; now right.
Qed.

Lemma filter_filter_same (p : A -> bool) l :
  filter p (filter p l) = filter p l.
Proof.
  induction l as [|z l IH]; simpl; auto.
  destruct (p z) eqn:Hz; simpl; rewrite ?Hz, IH; auto.
Qed.

Lemma filter_partition_perm (p : A -> bool) l :
  Permutation (filter p l ++ filter (fun x => negb (p x)) l) l.
Proof.
  induction l as [|z l IH]; simpl; auto.
  destruct (p z); simpl.
  - now constructor.
  - apply Permutation_sym, Permutation_cons_app, Permutation_sym, IH.
Qed.

Lemma In_firstn n (l : list A) x : In x (firstn n l) -> In x l.
Proof.
  intros H; rewrite <- (firstn_skipn n l). apply in_or_app; now left.
Qed.

Lemma nth_error_map_firstn {B : Type} (f : A -> B) n l i e :
  nth_error (map f (firstn n l)) i = Some e ->
  exists x, nth_error l i = Some x /\ f x = e /\ i < n.
Proof.
  rewrite nth_error_map, nth_error_firstn.
  destruct (Nat.ltb_spec i n); [|discriminate].
  destruct (nth_error l i) as [x|]; [|discriminate].
  intros [= <-]; now exists x.
Qed.




Lemma sorted_before (R : A -> A -> Prop) l u v :
  StronglySorted R l -> before u v l -> R u v.
Proof.
  intros Hs (l1 & l2 & l3 & ->).
  induction l1 as [|z l1 IH]; simpl in Hs.
  - inversion Hs as [|? ? _ Hall]; subst.
    rewrite Forall_forall in Hall. apply Hall.
    apply in_or_app; right; now left.
  - inversion Hs; subst; auto.
Qed.

End ListFacts.

(** ** Objects as frequency tables *)

Lemma assoc_none_iff {B : Type} k (l : list (string * B)) :
  assoc k l = None <-> ~ In k (map fst l).
Proof.
  induction l as [|[k' v] l IH]; simpl.
  - tauto.
  - destruct (String.eqb_spec k k') as [->|Hne].
    + split; [discriminate | intros H; exfalso; apply H; now left].
    + rewrite IH; split; [intros H [E|I]; congruence | tauto].
Qed.

Lemma assoc_some_in {B : Type} k (l : list (string * B)) v :
  assoc k l = Some v -> In (k, v) l.
Proof.
  induction l as [|[k' v'] l IH]; simpl; [discriminate|].
  destruct (String.eqb_spec k k') as [->|Hne].
  - intros [= ->]; now left.
  - intros H; right; auto.
Qed.

Lemma put_absent o k p : assoc k o = None -> put o k p = o ++ [(k, p)].
Proof.
  induction o as [|[k' p'] o IH]; simpl; auto.
  destruct (k =? k'); [discriminate|]. intros H; now rewrite IH.
Qed.

Lemma put_present_keys o k p q :
  assoc k o = Some q -> keys (put o k p) = keys o.
Proof.
  unfold keys; induction o as [|[k' p'] o IH]; simpl; [discriminate|].
  destruct (k =? k'); simpl; auto. intros H; now rewrite IH.
Qed.

Lemma put_present_total o k p q :
  assoc k o = Some q -> total (put o k p) + weight q = total o + weight p.
Proof.
  unfold total; induction o as [|[k' p'] o IH]; simpl; [discriminate|].
  destruct (k =? k'); simpl.
  - intros [= ->]; lia.
  - intros H; specialize (IH H); lia.
Qed.

Lemma total_app o1 o2 : total (o1 ++ o2) = total o1 + total o2.
Proof. unfold total; now rewrite map_app, list_sum_app. Qed.

Lemma put_forall (P : string * prim -> Prop) o k p :
  Forall P o -> P (k, p) -> Forall P (put o k p).
Proof.
  induction o as [|[k' p'] o IH]; simpl; intros Ho Hp.
  - now constructor.
  - inversion Ho; subst.
    destruct (String.eqb_spec k k') as [->|Hne]; constructor; auto.
Qed.

Lemma plain_not_inherited k :
  plain k = true -> assoc k Object_prototype = None /\ k <> "__proto__".
Proof.
  unfold plain, inherited.
  destruct (assoc k Object_prototype) eqn:E; [discriminate|].
  intros _; split; auto. intros ->; discriminate.
Qed.

(** The effect of one counting step on a plain key. *)
Lemma step_plain_new o k :
  plain k = true -> assoc k o = None -> step o k = o ++ [(k, Num 1)].
Proof.
  intros Hk Ho; destruct (plain_not_inherited _ Hk) as [Hp Hne].
  unfold step, Set_, Get; rewrite Ho, Hp; simpl.
  apply String.eqb_neq in Hne; rewrite Hne. now apply put_absent.
Qed.

Lemma step_plain_old o k n :
  plain k = true -> assoc k o = Some (Num n) ->
  step o k = put o k (Num (n + 1)).
Proof.
  intros Hk Ho; destruct (plain_not_inherited _ Hk) as [_ Hne].
  unfold step, Set_, Get; rewrite Ho; simpl.
  apply String.eqb_neq in Hne; now rewrite Hne.
Qed.

Lemma numeric_assoc o k p :
  numeric o -> assoc k o = Some p -> exists n, p = Num (S n).
Proof.
  intros Ho H; apply assoc_some_in in H.
  unfold numeric in Ho; rewrite Forall_forall in Ho.
  exact (Ho _ H).
Qed.

Lemma step_plain_numeric o k :
  plain k = true -> numeric o -> numeric (step o k).
Proof.
  intros Hk Ho; destruct (assoc k o) as [p|] eqn:E.
  - destruct (numeric_assoc _ _ _ Ho E) as [n ->].
    rewrite (step_plain_old _ _ _ Hk E).
    apply put_forall; auto. exists (S n); simpl; f_equal; lia.
  - rewrite (step_plain_new _ _ Hk E).
    apply Forall_app; split; auto. constructor; [now exists 0 | constructor].
Qed.

Lemma step_plain_total o k :
  plain k = true -> numeric o -> total (step o k) = total o + 1.
Proof.
  intros Hk Ho; destruct (assoc k o) as [p|] eqn:E.
  - destruct (numeric_assoc _ _ _ Ho E) as [n ->].
    rewrite (step_plain_old _ _ _ Hk E).
    pose proof (put_present_total o k (Num (S n + 1)) _ E) as H.
    simpl in H; simpl; lia.
  - rewrite (step_plain_new _ _ Hk E), total_app; reflexivity.
Qed.

Lemma step_plain_keys o k :
  plain k = true -> numeric o ->
  keys (step o k) = if in_dec string_dec k (keys o) then keys o
                    else keys o ++ [k].
Proof.
  intros Hk Ho; destruct (assoc k o) as [p|] eqn:E.
  - destruct (numeric_assoc _ _ _ Ho E) as [n ->].
    rewrite (step_plain_old _ _ _ Hk E), (put_present_keys _ _ _ _ E).
    destruct (in_dec string_dec k (keys o)) as [|Hn]; auto.
    exfalso; apply Hn. apply assoc_some_in in E.
    unfold keys; change k with (fst (k, Num (S n))); now apply in_map.
  - rewrite (step_plain_new _ _ Hk E).
    apply assoc_none_iff in E.
    destruct (in_dec string_dec k (keys o)); [contradiction|].
    unfold keys; now rewrite map_app.
Qed.

(** ** A run of counting steps over plain keys *)

Lemma tally_numeric ks : forall o,
  forallb plain ks = true -> numeric o -> numeric (tally ks o).
Proof.
  induction ks as [|k ks IH]; simpl; intros o H Ho; auto.
  apply andb_prop in H as [Hk Hks].
  apply IH; auto using step_plain_numeric.
Qed.

Lemma tally_total ks : forall o,
  forallb plain ks = true -> numeric o ->
  total (tally ks o) = total o + List.length ks.
Proof.
  induction ks as [|k ks IH]; simpl; intros o H Ho; [lia|].
  apply andb_prop in H as [Hk Hks].
  rewrite IH by auto using step_plain_numeric.
  rewrite step_plain_total by auto. lia.
Qed.

Lemma first_index_app_in k l k' :
  In k l -> first_index k (l ++ k') = first_index k l.
Proof.
  induction l as [|a l IH]; simpl; [tauto|].
  destruct (String.eqb_spec k a) as [|Hne]; auto.
  intros [E|I]; [congruence | now rewrite IH].
Qed.

Lemma first_index_absent k l k' :
  ~ In k l -> first_index k (l ++ k :: k') = List.length l.
Proof.
  induction l as [|a l IH]; simpl; intros H.
  - now rewrite String.eqb_refl.
  - destruct (String.eqb_spec k a) as [->|Hne]; [tauto|].
    rewrite IH; tauto.
Qed.

Lemma first_index_lt k l : In k l -> first_index k l < List.length l.
Proof.
  induction l as [|a l IH]; simpl; [tauto|].
  destruct (String.eqb_spec k a) as [|Hne]; [lia|].
  intros [E|I]; [congruence | specialize (IH I); lia].
Qed.

Lemma step_first_occurrence o seen k :
  plain k = true -> numeric o ->
  first_occurrence_order o seen ->
  first_occurrence_order (step o k) (seen ++ [k]).
Proof.
  intros Hk Ho (Hnd & Hin & Hord).
  unfold first_occurrence_order.
  rewrite (step_plain_keys _ _ Hk Ho).
  destruct (in_dec string_dec k (keys o)) as [Hi|Hn].
  - split; [|split]; auto.
    + intros x; rewrite in_app_iff, <- Hin; simpl.
      split; [tauto | intros [H|[<-|[]]]; auto].
    + intros a b Hab. destruct (before_In _ _ _ Hab) as [Ha Hb].
      apply Hin in Ha, Hb. rewrite !first_index_app_in by auto. auto.
  - assert (Hs : ~ In k seen) by now rewrite <- Hin.
    split; [|split].
    + apply NoDup_app; auto.
      * constructor; [simpl; tauto | constructor].
      * intros x Hx [<-|[]]; contradiction.
    + intros x; rewrite !in_app_iff, Hin; simpl; tauto.
    + intros a b Hab; apply before_snoc in Hab as [Hab | [Ha ->]].
      * destruct (before_In _ _ _ Hab) as [Ha Hb].
        apply Hin in Ha, Hb. rewrite !first_index_app_in by auto. auto.
      * rewrite (first_index_absent _ _ _ Hs).
        apply Hin in Ha. rewrite first_index_app_in by auto.
        now apply first_index_lt.
Qed.

Lemma tally_first_occurrence ks : forall o seen,
  forallb plain ks = true -> numeric o ->
  first_occurrence_order o seen ->
  first_occurrence_order (tally ks o) (seen ++ ks).
Proof.
  induction ks as [|k ks IH]; simpl; intros o seen H Ho Hinv.
  - now rewrite app_nil_r.
  - apply andb_prop in H as [Hk Hks].
    replace (seen ++ k :: ks) with ((seen ++ [k]) ++ ks)
      by now rewrite <- app_assoc.
    apply IH; auto using step_plain_numeric, step_first_occurrence.
Qed.

Lemma empty_first_occurrence : first_occurrence_order [] [].
Proof.
  split; [constructor | split]; simpl; [tauto|].
  intros a b (l1 & l2 & l3 & H); now destruct l1.
Qed.

Lemma numeric_nil : numeric [].
Proof. constructor. Qed.

(** ** [Object.entries] *)

Lemma insert_index_perm x l : Permutation (insert_index x l) (x :: l).
Proof.
  induction l as [|y l IH]; simpl; auto.
  destruct (fst x <=? fst y)%N; auto.
  etransitivity; [apply perm_skip, IH | apply perm_swap].
Qed.

Lemma sort_index_perm l : Permutation (fold_right insert_index [] l) l.
Proof.
  induction l as [|x l IH]; simpl; auto.
  etransitivity; [apply insert_index_perm | now apply perm_skip].
Qed.

Lemma index_part_filter o :
  map snd (index_part o) = filter (fun kv => is_array_index (fst kv)) o.
Proof.
  unfold index_part, is_array_index; induction o as [|kv o IH]; simpl; auto.
  destruct (array_index (fst kv)); simpl; now rewrite IH.
Qed.

Lemma Object_entries_perm o : Permutation (Object_entries o) o.
Proof.
  unfold Object_entries.
  etransitivity; [|apply (filter_partition_perm
                            (fun kv => is_array_index (fst kv)))].
  apply Permutation_app_tail.
  rewrite <- index_part_filter. apply Permutation_map, sort_index_perm.
Qed.

Lemma Object_entries_non_index o :
  filter non_index (Object_entries o) = filter non_index o.
Proof.
  unfold Object_entries; rewrite filter_app.
  rewrite filter_nil_of_forall; simpl.
  - apply filter_filter_same.
  - intros x Hx.
    apply (Permutation_in x (Permutation_map snd (sort_index_perm _))) in Hx.
    rewrite index_part_filter in Hx. apply filter_In in Hx as [_ Hx].
    unfold non_index; now rewrite Hx.
Qed.

(** ** The sort *)

Lemma insert_perm x l : Permutation (insert x l) (x :: l).
Proof.
  induction l as [|y l IH]; simpl; auto.
  destruct (SortCompare x y >? 0)%Z; auto.
  etransitivity; [apply perm_skip, IH | apply perm_swap].
Qed.

Lemma sort_perm l : Permutation (sort l) l.
Proof.
  unfold sort; induction l as [|x l IH]; simpl; auto.
  etransitivity; [apply insert_perm | now apply perm_skip].
Qed.




Lemma ranked_perm o : Permutation (ranked o) o.
Proof.
  unfold ranked; etransitivity; [apply sort_perm | apply Object_entries_perm].
Qed.

(** ** The counters of [count_all] are independent tallies *)

Lemma count_all_fold data : forall c,
  let c' := fold_left count_record data c in
  partCounts c' = tally (keys_of partNumber data) (partCounts c)
  /\ assetCounts c' = tally (keys_of removedFrom data) (assetCounts c)
  /\ mfcCounts c' = tally (keys_of mfc data) (mfcCounts c)
  /\ reasonCounts c' = tally (keys_of reasonRemove data) (reasonCounts c).
Proof.
  induction data as [|r data IH]; intros c; simpl; auto.
Qed.

Lemma partCounts_tally data :
  partCounts (count_all data) = tally (keys_of partNumber data) [].
Proof. apply (count_all_fold data). Qed.

Lemma assetCounts_tally data :
  assetCounts (count_all data) = tally (keys_of removedFrom data) [].
Proof. apply (count_all_fold data). Qed.

Lemma mfcCounts_tally data :
  mfcCounts (count_all data) = tally (keys_of mfc data) [].
Proof. apply (count_all_fold data). Qed.

Lemma reasonCounts_tally data :
  reasonCounts (count_all data) = tally (keys_of reasonRemove data) [].
Proof. apply (count_all_fold data). Qed.

(** ** Ranked lists over plain keys *)

Lemma count_sum_entries l : count_sum (map to_entry l) = total l.
Proof. unfold count_sum, total; now rewrite map_map. Qed.

Lemma total_perm l l' : Permutation l l' -> total l = total l'.
Proof.
  induction 1; unfold total in *; simpl; lia.
Qed.

(** Over plain keys every record adds one to the sum of the counts. *)
Lemma frequency_sum_plain ks :
  forallb plain ks = true ->
  count_sum (map to_entry (ranked (tally ks []))) = List.length ks.
Proof.
  intros H. rewrite count_sum_entries, (total_perm _ _ (ranked_perm _)).
  now rewrite tally_total by auto using numeric_nil.
Qed.

Lemma tally_length_distinct ks :
  forallb plain ks = true -> List.length (tally ks []) = distinct ks.
Proof.
  intros H.
  destruct (tally_first_occurrence ks [] [] H numeric_nil
              empty_first_occurrence) as (Hnd & Hin & _).
  simpl in Hin. unfold distinct.
  rewrite <- (length_map fst (tally ks [])).
  apply Permutation_length, NoDup_Permutation; auto.
  - apply NoDup_nodup.
  - intros k; rewrite nodup_In; apply Hin.
Qed.

(** Over plain keys a ranked list has one entry per distinct key, cut to
    the first [n]. *)
Lemma top_length_plain n ks :
  forallb plain ks = true ->
  List.length (map to_entry (slice0 n (ranked (tally ks []))))
  = Nat.min n (distinct ks).
Proof.
  intros H. unfold slice0.
  rewrite length_map, length_firstn, (Permutation_length (ranked_perm _)).
  now rewrite tally_length_distinct.
Qed.

Lemma ranked_length_plain ks :
  forallb plain ks = true ->
  List.length (map to_entry (ranked (tally ks []))) = distinct ks.
Proof.
  intros H.
  rewrite length_map, (Permutation_length (ranked_perm _)).
  now apply tally_length_distinct.
Qed.

(** Over plain keys every count is a positive number. *)
Lemma ranked_positive_plain n ks e :
  forallb plain ks = true ->
  In e (map to_entry (slice0 n (ranked (tally ks [])))) ->
  exists c, count e = Num (S c).
Proof.
  intros H He. apply in_map_iff in He as (kv & <- & Hkv).
  apply In_firstn in Hkv.
  apply (Permutation_in _ (ranked_perm _)) in Hkv.
  pose proof (tally_numeric ks [] H numeric_nil) as Hn.
  unfold numeric in Hn; rewrite Forall_forall in Hn.
  exact (Hn _ Hkv).
Qed.

Lemma tally_nonempty_plain k ks :
  forallb plain (k :: ks) = true -> tally (k :: ks) [] <> [].
Proof.
  intros H E. apply (f_equal (@List.length _)) in E.
  rewrite tally_length_distinct in E by auto.
  unfold distinct in E. apply length_zero_iff_nil in E.
  assert (Hin : In k (nodup string_dec (k :: ks)))
    by (apply nodup_In; now left).
  now rewrite E in Hin.
Qed.









(** ** The ranked lists of the analysis *)

Lemma list_of_nonempty Date_parse LocalTZA now rk r data :
  exists n,
    list_of rk (performAIAnalysis Date_parse LocalTZA now (r :: data))
    = map to_entry
        (slice0 n (ranked (tally (keys_of (selector_of rk) (r :: data)) [])))
    /\ match limit_of rk with
       | Some m => n = m
       | None =>
           n = List.length
                 (ranked (tally (keys_of (selector_of rk) (r :: data)) []))
       end.
Proof.
  unfold performAIAnalysis.
  cbn [List.length Nat.eqb].
  destruct rk; cbn [list_of topParts topAssets mfcStats selector_of limit_of].
  - exists 5; now rewrite partCounts_tally.
  - exists 5; now rewrite assetCounts_tally.
  - eexists; split; [|reflexivity].
    unfold slice0; now rewrite firstn_all, mfcCounts_tally.
Qed.

Lemma list_of_empty Date_parse LocalTZA now rk :
  list_of rk (performAIAnalysis Date_parse LocalTZA now []) = [sentinel].
Proof. now destruct rk. Qed.

Lemma trends_counts Date_parse LocalTZA now data :
  let t := trends (performAIAnalysis Date_parse LocalTZA now data) in
  recentCount t = List.length (filter (is_recent Date_parse LocalTZA now) data)
  /\ totalCount t = List.length data.
Proof.
  destruct data as [|r data]; split; reflexivity.
Qed.

(** When no key names an inherited property, the counts of a complete
    ranked list add up to the size of the snapshot. *)
Lemma frequency_sum_plain_keys Date_parse LocalTZA now data :
  data <> [] ->
  forallb plain (keys_of mfc data) = true ->
  count_sum (mfcStats (performAIAnalysis Date_parse LocalTZA now data))
  = List.length data.
Proof.
  intros Hne Hp. destruct data as [|r data]; [congruence|].
  destruct (list_of_nonempty Date_parse LocalTZA now MfcStats r data)
    as (n & E & ->).
  cbn [list_of selector_of] in E. rewrite E.
  unfold slice0; rewrite firstn_all, frequency_sum_plain by auto.
  unfold keys_of; now rewrite length_map.
Qed.

(** When no key names an inherited property, a ranked list has one entry
    per distinct key, at most five for parts and assets. *)
Lemma ranked_length_plain_keys Date_parse LocalTZA now rk data :
  data <> [] ->
  forallb plain (keys_of (selector_of rk) data) = true ->
  List.length (list_of rk (performAIAnalysis Date_parse LocalTZA now data))
  = match limit_of rk with
    | Some m => Nat.min m (distinct (keys_of (selector_of rk) data))
    | None => distinct (keys_of (selector_of rk) data)
    end.
Proof.
  intros Hne Hp. destruct data as [|r data]; [congruence|].
  destruct (list_of_nonempty Date_parse LocalTZA now rk r data)
    as (n & E & Hn).
  rewrite E. destruct (limit_of rk) as [m|]; subst n.
  - now apply top_length_plain.
  - unfold slice0; rewrite firstn_all. now apply ranked_length_plain.
Qed.

(** When no key names an inherited property, every count of a ranked list
    of a non-empty snapshot is a positive number and the formatter does not
    take its no-data branch. *)
Lemma ranked_counts_plain_keys Date_parse LocalTZA now rk data :
  data <> [] ->
  forallb plain (keys_of (selector_of rk) data) = true ->
  let items := list_of rk (performAIAnalysis Date_parse LocalTZA now data) in
  (forall e, In e items -> exists c, count e = Num (S c))
  /\ no_data items = false.
Proof.
  intros Hne Hp items. destruct data as [|r data]; [congruence|].
  destruct (list_of_nonempty Date_parse LocalTZA now rk r data)
    as (n & E & Hn).
  assert (Hall : forall e, In e items -> exists c, count e = Num (S c)).
  { subst items; rewrite E; intros e He.
    now apply (ranked_positive_plain n _ e Hp). }
  split; [exact Hall|].
  destruct items as [|e items'] eqn:Ei.
  - exfalso.
    pose proof (ranked_length_plain_keys Date_parse LocalTZA now rk
                  (r :: data) Hne Hp) as L.
    fold items in L. rewrite Ei in L. cbn [List.length] in L.
    assert (D : distinct (keys_of (selector_of rk) (r :: data)) <> 0).
    { unfold distinct; intros Z. apply length_zero_iff_nil in Z.
      assert (I : In (ToPropertyKey (selector_of rk r))
                    (nodup string_dec (keys_of (selector_of rk) (r :: data))))
        by (apply nodup_In; now left).
      now rewrite Z in I. }
    destruct (limit_of rk) as [m|] eqn:Em; [|lia].
    assert (m = 5) by (destruct rk; simpl in Em; congruence). lia.
  - simpl. destruct (Hall e (or_introl eq_refl)) as [c ->]. reflexivity.
Qed.

(** The lists of parts and assets never hold more than five entries,
    whatever the keys. *)
Lemma top_lists_at_most_five Date_parse LocalTZA now data :
  List.length (topParts (performAIAnalysis Date_parse LocalTZA now data)) <= 5
  /\ List.length (topAssets (performAIAnalysis Date_parse LocalTZA now data))
     <= 5.
Proof.
  unfold performAIAnalysis, slice0.
  destruct data as [|r data]; cbn [List.length Nat.eqb topParts topAssets].
  - split; lia.
  - rewrite !length_map. split; apply firstn_le_length.
Qed.

(** The zero-count sentinel stands only in the result of the empty
    snapshot, where the formatter takes its no-data branch. *)
Lemma empty_snapshot_no_data Date_parse LocalTZA now rk :
  no_data (list_of rk (performAIAnalysis Date_parse LocalTZA now [])) = true.
Proof. now rewrite list_of_empty. Qed.

(** ** Strings *)

Lemma append_assoc (a b c : string) : ((a ++ b) ++ c = a ++ (b ++ c))%string.
Proof. induction a; simpl; congruence. Qed.

Lemma append_empty_r (a : string) : (a ++ "" = a)%string.
Proof. induction a; simpl; congruence. Qed.

Lemma split_lines_from_plain s : forall cur,
  no_newline s = true -> split_lines_from cur s = [(cur ++ s)%string].
Proof.
  induction s as [|c s IH]; simpl; intros cur H.
  - now rewrite append_empty_r.
  - apply andb_prop in H as [Hc Hs].
    destruct (Ascii.eqb c LF); [discriminate|].
    rewrite IH by auto. now rewrite append_assoc.
Qed.

Lemma split_lines_from_line s rest : forall cur,
  no_newline s = true ->
  split_lines_from cur (s ++ String LF rest)
  = (cur ++ s)%string :: split_lines_from "" rest.
Proof.
  induction s as [|c s IH]; simpl; intros cur H.
  - now rewrite append_empty_r.
  - apply andb_prop in H as [Hc Hs].
    destruct (Ascii.eqb c LF); [discriminate|].
    rewrite IH by auto. now rewrite append_assoc.
Qed.

(** Splitting a newline-joined document gives back the lines, provided no
    line contains a line feed. *)
Lemma split_lines_join s l :
  forallb no_newline (s :: l) = true ->
  split_lines (join newline (s :: l)) = s :: l.
Proof.
  unfold split_lines; revert s; induction l as [|t l IH]; intros s H.
  - simpl in *. rewrite andb_true_r in H. now apply split_lines_from_plain.
  - change (join newline (s :: t :: l))
      with (s ++ String LF (join newline (t :: l)))%string.
    simpl in H; apply andb_prop in H as [Hs Hl].
    rewrite split_lines_from_line by auto. simpl. f_equal.
    apply IH. exact Hl.
Qed.

Lemma no_newline_append a b :
  no_newline (a ++ b) = no_newline a && no_newline b.
Proof.
  induction a as [|c a IH]; simpl; auto. now rewrite IH, andb_assoc.
Qed.

Lemma no_newline_join_comma l :
  forallb no_newline l = true -> no_newline (join "," l) = true.
Proof.
  induction l as [|s l IH]; auto.
  intros H; simpl in H; apply andb_prop in H as [Hs Hl].
  destruct l as [|t l]; auto.
  change (join "," (s :: t :: l))
    with (s ++ "," ++ join "," (t :: l))%string.
  rewrite !no_newline_append, Hs, (IH Hl); reflexivity.
Qed.

Lemma prefix_append sub post : String.prefix sub (sub ++ post) = true.
Proof.
  induction sub as [|c sub IH]; simpl; [now destruct post|].
  destruct (ascii_dec c c); [auto | congruence].
Qed.

Lemma includes_prefix sub s :
  String.prefix sub s = true -> includes sub s = true.
Proof. intros H; destruct s; simpl in H |- *; now rewrite H. Qed.

Lemma includes_append sub pre post :
  includes sub (pre ++ sub ++ post) = true.
Proof.
  induction pre as [|c pre IH].
  - change (includes sub (sub ++ post) = true).
    apply includes_prefix, prefix_append.
  - change (String.prefix sub (String c (pre ++ sub ++ post))
            || includes sub (pre ++ sub ++ post) = true).
    rewrite IH; apply orb_true_r.
Qed.

Lemma join_In_split sep l s :
  In s l -> exists pre post, join sep l = (pre ++ s ++ post)%string.
Proof.
  induction l as [|t l IH]; simpl; [tauto|].
  intros [->|Hin].
  - destruct l as [|u l].
    + exists "", ""; simpl; now rewrite append_empty_r.
    + exists "", (sep ++ join sep (u :: l))%string; reflexivity.
  - destruct (IH Hin) as (pre & post & E).
    destruct l as [|u l]; [destruct Hin|].
    exists (t ++ sep ++ pre)%string, post.
    rewrite E, !append_assoc; reflexivity.
Qed.

Lemma or_empty_raw v : or_empty v = raw v.
Proof.
  destruct v as [s|]; [|reflexivity].
  unfold or_empty, logical_or, truthy.
  destruct (String.eqb_spec s ""); subst; reflexivity.
Qed.

Lemma replace_commas_length s :
  String.length (replace_commas s) = String.length s.
Proof. induction s; simpl; congruence. Qed.

Lemma replace_commas_get s : forall i,
  String.get i (replace_commas s)
  = option_map (fun c => if Ascii.eqb c "," then ";"%char else c)
      (String.get i s).
Proof.
  induction s as [|c s IH]; intros i; simpl; [reflexivity|].
  destruct i; [reflexivity | apply IH].
Qed.

Lemma replace_commas_no_comma s i :
  String.get i (replace_commas s) <> Some ","%char.
Proof.
  rewrite replace_commas_get.
  destruct (String.get i s) as [c|]; simpl; [|discriminate].
  destruct (Ascii.eqb_spec c ","); [discriminate | congruence].
Qed.

Lemma includes_join_join sub row rows header :
  In row rows ->
  In sub (row_cells row) ->
  includes sub (join newline (header :: map csv_line rows)) = true.
Proof.
  intros Hrow Hsub.
  destruct (join_In_split "," _ _ Hsub) as (a & b & Ea).
  assert (Hin : In (csv_line row) (header :: map csv_line rows))
    by (right; now apply in_map).
  destruct (join_In_split newline _ _ Hin) as (pre & post & E).
  rewrite E. unfold csv_line at 1; rewrite Ea.
  rewrite !append_assoc, <- (append_assoc pre a).
  apply includes_append.
Qed.

Lemma csv_lines_newline_free formDatabase :
  forallb (fun row => forallb no_newline (row_cells row)) formDatabase = true ->
  forallb no_newline (join "," headers :: map csv_line formDatabase) = true.
Proof.
  intros H. cbn [forallb]. apply andb_true_intro; split; [reflexivity|].
  induction formDatabase as [|row rows IH]; [reflexivity|].
  simpl in H; apply andb_prop in H as [Hrow Hrows].
  cbn [map forallb]. rewrite (IH Hrows), andb_true_r.
  now apply no_newline_join_comma.
Qed.

(** ** Binary64 arithmetic of the threshold *)

Lemma digits2_size p : digits2_pos p = Pos.size p.
Proof. induction p; simpl; congruence. Qed.

(** [digits2_pos p] is the number of binary digits of [p]. *)
Lemma digits_bounds p :
  (2 ^ (Zpos (digits2_pos p) - 1) <= Zpos p < 2 ^ Zpos (digits2_pos p))%Z.
Proof.
  rewrite digits2_size.
  pose proof (Pos.size_gt p) as Hgt.
  pose proof (Pos.size_le p) as Hle.
  apply Pos2Z.pos_lt_pos in Hgt. apply Pos2Z.pos_le_pos in Hle.
  rewrite Pos2Z.inj_pow in Hgt, Hle.
  split; [|exact Hgt].
  assert (E : (2 ^ Z.pos (Pos.size p)
               = 2 * 2 ^ (Z.pos (Pos.size p) - 1))%Z).
  { replace (Z.pos (Pos.size p)) with (Z.succ (Z.pos (Pos.size p) - 1)) at 1
      by lia.
    apply Z.pow_succ_r; lia. }
  rewrite E in Hle. lia.
Qed.

Lemma digits_unique p d :
  (2 ^ (d - 1) <= Zpos p < 2 ^ d)%Z -> Zpos (digits2_pos p) = d.
Proof.
  intros [Hl Hu]. pose proof (digits_bounds p) as [Bl Bu].
  set (e := Zpos (digits2_pos p)) in *.
  assert (0 < d)%Z.
  { destruct (Z.ltb_spec 0 d); auto.
    exfalso. assert (2 ^ d <= 1)%Z; [|lia].
    destruct (Z.eq_dec d 0) as [->|]; [simpl; lia|].
    rewrite Z.pow_neg_r by lia. lia. }
  destruct (Z.lt_trichotomy e d) as [Hlt|[->|Hgt]]; auto; exfalso.
  - assert (2 ^ e <= 2 ^ (d - 1))%Z by (apply Z.pow_le_mono_r; lia). lia.
  - assert (2 ^ d <= 2 ^ (e - 1))%Z by (apply Z.pow_le_mono_r; lia). lia.
Qed.

Lemma iter_pos_nat {A : Type} (f : A -> A) p : forall x,
  iter_pos f p x = Nat.iter (Pos.to_nat p) f x.
Proof.
  induction p as [p IH|p IH|]; intros x; cbn [iter_pos].
  - rewrite !IH, Pos2Nat.inj_xI.
    replace (S (2 * Pos.to_nat p))
      with (Pos.to_nat p + (Pos.to_nat p + 1)) by lia.
    rewrite !Nat.iter_add. reflexivity.
  - rewrite !IH, Pos2Nat.inj_xO.
    replace (2 * Pos.to_nat p) with (Pos.to_nat p + Pos.to_nat p) by lia.
    now rewrite Nat.iter_add.
  - reflexivity.
Qed.

Lemma shr_inv_step P k rec : shr_inv P k rec -> shr_inv P (S k) (shr_1 rec).
Proof.
  destruct rec as [m r s]; unfold shr_inv; cbn [shr_m shr_r shr_s].
  intros (Hm & rem & Hrem & HP & Hloc).
  rewrite Nat2Z.inj_succ, Z.pow_succ_r by lia.
  set (K := (2 ^ Z.of_nat k)%Z) in *.
  assert (0 < K)%Z by (apply Z.pow_pos_nonneg; lia).
  destruct m as [|[p|p|]|p]; cbn [shr_1 shr_m shr_r shr_s]; try lia.
  - split; [lia|]. exists rem. destruct r, s; cbn [orb]; lia.
  - split; [lia|]. exists (rem + K)%Z. destruct r, s; cbn [orb]; lia.
  - split; [lia|]. exists rem. destruct r, s; cbn [orb]; lia.
  - split; [lia|]. exists (rem + K)%Z. destruct r, s; cbn [orb]; lia.
Qed.

Lemma shr_inv_iter P k :
  (0 <= P)%Z ->
  shr_inv P k
    (Nat.iter k shr_1 {| shr_m := P; shr_r := false; shr_s := false |}).
Proof.
  intros HP; induction k as [|k IH].
  - split; [exact HP|]. exists 0%Z.
    unfold Nat.iter; cbn [nat_rect shr_m shr_r shr_s].
    change (Z.of_nat 0) with 0%Z; rewrite Z.pow_0_r. lia.
  - unfold Nat.iter in *; cbn [nat_rect]. now apply shr_inv_step.
Qed.

(** Rounding to nearest even moves the mantissa by at most half a unit. *)
Lemma round_nearest_even_bound P k rec :
  shr_inv P k rec ->
  let m' := round_nearest_even (shr_m rec) (loc_of_shr_record rec) in
  (shr_m rec <= m' <= shr_m rec + 1)%Z
  /\ (2 * Z.abs (m' * 2 ^ Z.of_nat k - P) <= 2 ^ Z.of_nat k)%Z.
Proof.
  destruct rec as [m r s]; unfold shr_inv; cbn [shr_m shr_r shr_s].
  intros (Hm & rem & Hrem & HP & Hloc).
  set (K := (2 ^ Z.of_nat k)%Z) in *.
  destruct r, s; cbn [round_nearest_even loc_of_shr_record];
    try destruct (Z.even m); lia.
Qed.

Lemma shr_nat rec e n :
  (0 <= n)%Z -> shr rec e n = (Nat.iter (Z.to_nat n) shr_1 rec, (e + n)%Z).
Proof.
  intros Hn; destruct n as [|p|p]; [| |lia].
  - unfold shr; simpl Z.to_nat. now rewrite Z.add_0_r.
  - unfold shr. now rewrite iter_pos_nat.
Qed.

Lemma fexp_normal e : (-1074 <= e - 53)%Z -> fexp 53 1024 e = (e - 53)%Z.
Proof. unfold fexp, emin; lia. Qed.

Lemma shr_fexp_spec p e d :
  Zpos (digits2_pos p) = d -> (53 <= d)%Z -> (-1074 <= d + e - 53)%Z ->
  shr_fexp 53 1024 (Zpos p) e loc_Exact
  = (Nat.iter (Z.to_nat (d - 53)) shr_1
       {| shr_m := Zpos p; shr_r := false; shr_s := false |},
     (e + (d - 53))%Z).
Proof.
  intros Hd H53 Hmin.
  unfold shr_fexp. cbn [Zdigits2 shr_record_of_loc]. rewrite Hd.
  rewrite fexp_normal by lia.
  replace (d + e - 53 - e)%Z with (d - 53)%Z by lia.
  apply shr_nat; lia.
Qed.

Lemma binary_round_aux_finish sx mx ex lx :
  binary_round_aux 53 1024 sx mx ex lx
  = let '(mrs', e') := shr_fexp 53 1024 mx ex lx in
    finish sx (round_nearest_even (shr_m mrs') (loc_of_shr_record mrs')) e'.
Proof. reflexivity. Qed.

Lemma finish_spec m' e' :
  (2 ^ 52 <= m' <= 2 ^ 53)%Z -> (-1074 <= e')%Z -> (e' + 1 <= 971)%Z ->
  exists m e,
    finish false m' e' = S754_finite false m e
    /\ (2 ^ 52 <= Zpos m < 2 ^ 53)%Z
    /\ (e' <= e <= e' + 1)%Z
    /\ (Zpos m * 2 ^ (e - e'))%Z = m'.
Proof.
  intros Hm Hlo Hhi.
  destruct m' as [|p|p]; try (exfalso; lia).
  destruct (Z.eq_dec (Zpos p) (2 ^ 53)) as [E|NE].
  - injection E as ->. exists (2 ^ 52)%positive, (e' + 1)%Z.
    unfold finish.
    rewrite (shr_fexp_spec _ _ 54) by (reflexivity || lia).
    change (Z.to_nat (54 - 53)) with 1.
    unfold Nat.iter; cbn [nat_rect shr_1 shr_m].
    replace (e' + (54 - 53) <=? 1024 - 53)%Z with true
      by (symmetry; apply Z.leb_le; lia).
    replace (e' + (54 - 53))%Z with (e' + 1)%Z by lia.
    split; [reflexivity|]. split; [lia|]. split; [lia|].
    replace (e' + 1 - e')%Z with 1%Z by lia. reflexivity.
  - exists p, e'. unfold finish.
    rewrite (shr_fexp_spec _ _ 53) by (try apply digits_unique; lia).
    change (Z.to_nat (53 - 53)) with 0.
    unfold Nat.iter; cbn [nat_rect shr_m].
    rewrite Z.add_0_r.
    replace (e' <=? 1024 - 53)%Z with true
      by (symmetry; apply Z.leb_le; lia).
    split; [reflexivity|]. split; [lia|]. split; [lia|].
    rewrite Z.sub_diag. lia.
Qed.

(** Rounding a positive integer mantissa of at least 53 digits: the result
    is a normal double within half a unit in the last place. *)
Lemma binary_round_aux_spec p ex d :
  Zpos (digits2_pos p) = d -> (53 <= d)%Z ->
  (-1074 <= d + ex - 53)%Z -> (d + ex - 53 + 1 <= 971)%Z ->
  exists m e m',
    binary_round_aux 53 1024 false (Zpos p) ex loc_Exact
    = S754_finite false m e
    /\ (2 ^ 52 <= Zpos m < 2 ^ 53)%Z
    /\ (ex + (d - 53) <= e <= ex + (d - 53) + 1)%Z
    /\ (Zpos m * 2 ^ (e - (ex + (d - 53))))%Z = m'
    /\ (2 * Z.abs (m' * 2 ^ (d - 53) - Zpos p) <= 2 ^ (d - 53))%Z.
Proof.
  intros Hd H53 Hlo Hhi.
  rewrite binary_round_aux_finish, (shr_fexp_spec _ _ d) by auto.
  set (k := Z.to_nat (d - 53)).
  set (rec := Nat.iter k shr_1 _).
  assert (Hinv : shr_inv (Zpos p) k rec) by (apply shr_inv_iter; lia).
  destruct (round_nearest_even_bound _ _ _ Hinv) as [Hq Hr].
  set (m' := round_nearest_even (shr_m rec) (loc_of_shr_record rec)) in *.
  assert (Hk : Z.of_nat k = (d - 53)%Z) by (unfold k; lia).
  rewrite Hk in Hr.
  assert (Hm' : (2 ^ 52 <= m' <= 2 ^ 53)%Z).
  { destruct Hinv as (Hm & rem & Hrem & HP & _). rewrite Hk in *.
    pose proof (digits_bounds p) as [Bl Bu]. rewrite Hd in Bl, Bu.
    assert (E1 : (2 ^ (d - 1) = 2 ^ 52 * 2 ^ (d - 53))%Z).
    { rewrite <- Z.pow_add_r by lia. f_equal; lia. }
    assert (E2 : (2 ^ d = 2 ^ 53 * 2 ^ (d - 53))%Z).
    { rewrite <- Z.pow_add_r by lia. f_equal; lia. }
    assert (0 < 2 ^ (d - 53))%Z by (apply Z.pow_pos_nonneg; lia).
    assert (2 ^ 52 <= shr_m rec < 2 ^ 53)%Z by nia.
    lia. }
  destruct (finish_spec m' (ex + (d - 53))%Z Hm') as (m & e & E & Hm & He & Hv);
    try lia.
  exists m, e, m'. repeat split; auto; lia.
Qed.

Lemma pos_iter_xO p n : Zpos (Pos.iter xO p n) = (Zpos p * 2 ^ Zpos n)%Z.
Proof.
  induction n as [|n IH] using Pos.peano_ind.
  - cbn [Pos.iter]. rewrite Z.pow_1_r. lia.
  - rewrite Pos.iter_succ, Pos2Z.inj_succ, Z.pow_succ_r by lia.
    rewrite Pos2Z.inj_xO, IH. lia.
Qed.

Lemma shl_align_spec p d :
  (d <= 53)%Z ->
  exists mz,
    shl_align p 0 (d - 53) = (mz, (d - 53)%Z)
    /\ Zpos mz = (Zpos p * 2 ^ (53 - d))%Z.
Proof.
  intros Hd. unfold shl_align. rewrite Z.sub_0_r.
  destruct (d - 53)%Z as [|q|q] eqn:E; try lia.
  - exists p. split; [reflexivity|].
    replace (53 - d)%Z with 0%Z by lia. rewrite Z.pow_0_r; lia.
  - exists (Pos.iter xO p q). split; [reflexivity|].
    rewrite pos_iter_xO. f_equal. f_equal. lia.
Qed.

(** A positive integer below 2^53 converts exactly, to a normal double. *)
Lemma of_integer_spec p :
  (Zpos p < 2 ^ 53)%Z ->
  exists m e,
    binary_normalize 53 1024 (Zpos p) 0 false = S754_finite false m e
    /\ (2 ^ 52 <= Zpos m < 2 ^ 53)%Z
    /\ (-52 <= e <= 0)%Z
    /\ Zpos m = (Zpos p * 2 ^ (- e))%Z.
Proof.
  intros Hp.
  pose proof (digits_bounds p) as [Bl Bu].
  set (d := Zpos (digits2_pos p)) in *.
  assert (Hd1 : (1 <= d)%Z) by (unfold d; lia).
  assert (Hd : (d <= 53)%Z).
  { destruct (Z.le_gt_cases d 53); auto. exfalso.
    assert (2 ^ 53 <= 2 ^ (d - 1))%Z by (apply Z.pow_le_mono_r; lia). lia. }
  unfold binary_normalize, binary_round.
  fold d. rewrite fexp_normal by lia.
  replace (d + 0 - 53)%Z with (d - 53)%Z by lia.
  destruct (shl_align_spec p d Hd) as (mz & -> & Hmz).
  assert (Dz : Zpos (digits2_pos mz) = 53%Z).
  { apply digits_unique. rewrite Hmz.
    assert (E1 : (2 ^ (53 - 1) = 2 ^ (d - 1) * 2 ^ (53 - d))%Z).
    { rewrite <- Z.pow_add_r by lia. f_equal; lia. }
    assert (E2 : (2 ^ 53 = 2 ^ d * 2 ^ (53 - d))%Z).
    { rewrite <- Z.pow_add_r by lia. f_equal; lia. }
    assert (0 < 2 ^ (53 - d))%Z by (apply Z.pow_pos_nonneg; lia).
    rewrite E1, E2. nia. }
  destruct (binary_round_aux_spec mz (d - 53)%Z 53%Z Dz)
    as (m & e & m' & E & Hm & He & Hv & Hr); try lia.
  rewrite E. exists m, e.
  replace (53 - 53)%Z with 0%Z in * by lia.
  rewrite Z.pow_0_r in Hr. rewrite Z.add_0_r in *.
  assert (Em : m' = Zpos mz) by lia. rewrite Em in Hv. clear Hr Em.
  assert (e = (d - 53)%Z).
  { destruct (Z.eq_dec e (d - 53)); auto. exfalso.
    assert (e = (d - 53 + 1)%Z) by lia. subst e.
    replace (d - 53 + 1 - (d - 53))%Z with 1%Z in Hv by lia.
    rewrite Z.pow_1_r in Hv.
    assert (Zpos mz < 2 ^ 53)%Z; [|lia].
    pose proof (digits_bounds mz) as [_ B]. now rewrite Dz in B. }
  subst e. rewrite Z.sub_diag, Z.pow_0_r in Hv.
  split; [reflexivity|]. split; [lia|]. split; [lia|].
  replace (- (d - 53))%Z with (53 - d)%Z by lia. lia.
Qed.

(** The order of positive normal doubles is the order of their values. *)
Lemma SFltb_finite m1 e1 m2 e2 e0 :
  (2 ^ 52 <= Zpos m1 < 2 ^ 53)%Z -> (2 ^ 52 <= Zpos m2 < 2 ^ 53)%Z ->
  (e0 <= e1)%Z -> (e0 <= e2)%Z ->
  SFltb (S754_finite false m1 e1) (S754_finite false m2 e2) = true
  <-> (Zpos m1 * 2 ^ (e1 - e0) < Zpos m2 * 2 ^ (e2 - e0))%Z.
Proof.
  intros H1 H2 L1 L2. unfold SFltb, SFcompare.
  assert (P1 : (0 < 2 ^ (e1 - e0))%Z) by (apply Z.pow_pos_nonneg; lia).
  assert (P2 : (0 < 2 ^ (e2 - e0))%Z) by (apply Z.pow_pos_nonneg; lia).
  destruct (Z.compare_spec e1 e2) as [->|Hlt|Hgt].
  - rewrite Pos.compare_cont_spec; cbn [Pos.switch_Eq].
    destruct (Pos.compare_spec m1 m2) as [->|H|H]; split;
      try discriminate; try reflexivity; nia.
  - split; [intros _|reflexivity].
    assert (E : (2 ^ (e2 - e0) = 2 ^ (e2 - e1) * 2 ^ (e1 - e0))%Z).
    { rewrite <- Z.pow_add_r by lia. f_equal; lia. }
    assert (2 <= 2 ^ (e2 - e1))%Z.
    { replace 2%Z with (2 ^ 1)%Z at 1 by reflexivity.
      apply Z.pow_le_mono_r; lia. }
    rewrite E. nia.
  - split; [discriminate|]. intros C. exfalso.
    assert (E : (2 ^ (e1 - e0) = 2 ^ (e1 - e2) * 2 ^ (e2 - e0))%Z).
    { rewrite <- Z.pow_add_r by lia. f_equal; lia. }
    assert (2 <= 2 ^ (e1 - e2))%Z.
    { replace 2%Z with (2 ^ 1)%Z at 1 by reflexivity.
      apply Z.pow_le_mono_r; lia. }
    rewrite E in C. nia.
Qed.

Lemma pow_split a b :
  (0 <= a)%Z -> (0 <= b)%Z -> (2 ^ (a + b) = 2 ^ a * 2 ^ b)%Z.
Proof. intros; now apply Z.pow_add_r. Qed.

(** The binary64 comparison [recent > total * 0.6] decides the exact
    comparison 5 * recent > 3 * total, for every array length. *)
Lemma above_threshold_integers n r :
  (0 < n < 2 ^ 32)%Z -> (0 <= r < 2 ^ 53)%Z ->
  SFltb (SFmul 53 1024 (binary_normalize 53 1024 n 0 false) zero_point_six)
        (binary_normalize 53 1024 r 0 false)
  = (3 * n <? 5 * r)%Z.
Proof.
  intros Hn Hr.
  destruct n as [|pn|pn]; try lia.
  destruct (of_integer_spec pn) as (mn & en & En & Hmn & Hen & Vn); [lia|].
  rewrite En. unfold zero_point_six. cbn [SFmul xorb].
  set (M := 5404319552844595%positive).
  set (T := (2 ^ (- en))%Z) in *.
  assert (HT : (2 ^ 21 <= T)%Z).
  { destruct (Z.le_gt_cases 21 (- en)) as [H|H].
    - unfold T. apply Z.pow_le_mono_r; lia.
    - exfalso. assert (T <= 2 ^ 20)%Z by (apply Z.pow_le_mono_r; lia). nia. }
  assert (Hen' : (en <= -21)%Z).
  { destruct (Z.le_gt_cases en (-21)); auto. exfalso.
    assert (T <= 2 ^ 20)%Z by (apply Z.pow_le_mono_r; lia). lia. }
  pose proof (digits_bounds (mn * M)) as [Bl Bu].
  set (d := Zpos (digits2_pos (mn * M))) in *.
  assert (HP : Zpos (mn * M) = (Zpos mn * Zpos M)%Z) by reflexivity.
  assert (Hd : (105 <= d <= 106)%Z).
  { assert (2 ^ 104 <= Zpos (mn * M) < 2 ^ 106)%Z
      by (rewrite HP; unfold M; lia).
    split.
    - destruct (Z.le_gt_cases 105 d); auto. exfalso.
      assert (2 ^ d <= 2 ^ 104)%Z by (apply Z.pow_le_mono_r; lia). lia.
    - destruct (Z.le_gt_cases d 106); auto. exfalso.
      assert (2 ^ 106 <= 2 ^ (d - 1))%Z by (apply Z.pow_le_mono_r; lia).
      lia. }
  destruct (binary_round_aux_spec (mn * M) (en + -53)%Z d eq_refl)
    as (m & e & m' & E & Hm & He & Hv & Hround); try lia.
  rewrite E.
  set (e' := (en + -53 + (d - 53))%Z) in *.
  set (A := (2 ^ (d - 53))%Z) in *.
  assert (HA : (2 ^ 52 <= A <= 2 ^ 53)%Z).
  { unfold A; split; apply Z.pow_le_mono_r; lia. }
  destruct r as [|pr|pr]; try lia.
  - unfold binary_normalize. cbn [SFltb SFcompare].
    symmetry; apply Z.ltb_ge; lia.
  - destruct (of_integer_spec pr) as (mr & er & Er & Hmr & Her & Vr); [lia|].
    rewrite Er.
    set (W := (2 ^ (en + 147))%Z).
    assert (HW : (0 < W)%Z) by (apply Z.pow_pos_nonneg; lia).
    assert (L : (Zpos m * 2 ^ (e - -200) = m' * A * W)%Z).
    { rewrite <- Hv.
      replace (e - -200)%Z with ((e - e') + ((d - 53) + (en + 147)))%Z
        by (unfold e'; lia).
      rewrite !pow_split by (unfold e' in *; lia). fold A W. ring. }
    assert (R : (Zpos mr * 2 ^ (er - -200) = Zpos pr * 2 ^ 53 * T * W)%Z).
    { rewrite Vr. replace (er - -200)%Z with (er + 200)%Z by lia.
      rewrite <- Z.mul_assoc, <- Z.pow_add_r by lia.
      replace (- er + (er + 200))%Z with (53 + (- en + (en + 147)))%Z by lia.
      rewrite !pow_split by lia. fold T W. ring. }
    set (B := (2 ^ (106 - d))%Z).
    assert (HB : (B * A = 2 ^ 53)%Z).
    { unfold B, A. rewrite <- Z.pow_add_r by lia. f_equal; lia. }
    set (Rr := (Zpos pr * B * T)%Z).
    assert (HR : (Rr * A = Zpos pr * 2 ^ 53 * T)%Z).
    { unfold Rr. rewrite <- HB. ring. }
    set (V := (Zpos pn * T)%Z) in *.
    set (U := (Zpos pr * T)%Z).
    assert (HU : (Zpos pr * 2 ^ 53 * T = 2 ^ 53 * U)%Z) by (unfold U; ring).
    assert (HPV : Zpos (mn * M) = (5404319552844595 * V)%Z).
    { rewrite HP, Vn. unfold M. ring. }
    assert (Hlt : SFltb (S754_finite false m e) (S754_finite false mr er)
                  = true <-> (m' < Rr)%Z).
    { rewrite (SFltb_finite m e mr er (-200)) by (unfold e' in *; lia).
      rewrite L, R, <- HR. split; intros H; nia. }
    destruct (Z.ltb_spec (3 * Zpos pn) (5 * Zpos pr)) as [C|C].
    + apply Hlt.
      assert (3 * V + T <= 5 * U)%Z by (unfold U, V; nia).
      assert (m' * A < Rr * A)%Z; [|nia].
      rewrite HR, HU. lia.
    + destruct (SFltb _ _) eqn:S; auto. exfalso.
      assert (Hm'R : (m' < Rr)%Z) by now apply Hlt.
      assert (5 * U <= 3 * V)%Z by (unfold U, V; nia).
      assert (m' * A + A <= Rr * A)%Z by nia.
      rewrite HR, HU in *. lia.
Qed.

Lemma above_threshold_exact total recent :
  0 < total -> (Z.of_nat total < 2 ^ 32)%Z -> recent <= total ->
  above_threshold recent total = (3 * total <? 5 * recent)%nat.
Proof.
  intros Ht Hb Hr.
  unfold above_threshold, double_gt, double_mul, of_length.
  rewrite above_threshold_integers by lia.
  destruct (Nat.ltb_spec (3 * total) (5 * recent));
    [apply Z.ltb_lt | apply Z.ltb_ge]; lia.
Qed.

(** ** Recency *)

(** What the filter of [performAIAnalysis] tests: the time value parsed
    from [date], or from [removalDate] when [date] is absent or empty, is at
    or after the cut-off (the boundary is included). *)
Lemma is_recent_iff Date_parse LocalTZA now record :
  is_recent Date_parse LocalTZA now record = true
  <-> exists t,
        new_Date Date_parse (logical_or (date record) (removalDate record))
        = Some t
        /\ (thirtyDaysAgo LocalTZA now <= t)%Z.
Proof.
  unfold is_recent, date_ge.
  destruct (new_Date _ _) as [d|]; split.
  - intros H; exists d; split; auto. now apply Z.leb_le.
  - intros (t & [= ->] & H). now apply Z.leb_le.
  - discriminate.
  - intros (t & H & _); discriminate.
Qed.

(** Under a constant offset from UTC the cut-off is 30 * 86 400 000 ms
    before [now]. *)
Lemma thirtyDaysAgo_constant_offset LocalTZA now z :
  (forall t b, LocalTZA t b = z) ->
  thirtyDaysAgo LocalTZA now = (now - 30 * msPerDay)%Z.
Proof. intros H; unfold thirtyDaysAgo; rewrite !H; lia. Qed.

Lemma filter_length_middle {A : Type} (p : A -> bool) l1 x l2 :
  p x = false ->
  List.length (filter p (l1 ++ x :: l2)) = List.length (filter p (l1 ++ l2)).
Proof.
  intros H; rewrite !filter_app; simpl; now rewrite H.
Qed.

(** * Part IV: the properties of the reporting module *)

(** ** Empty snapshot *)

Lemma ranked_property_names a k l :
  assoc k (own_properties a) = Some (Ranked l) ->
  k = "topParts" \/ k = "topAssets" \/ k = "mfcStats".
Proof.
  unfold own_properties; simpl.
  destruct (String.eqb_spec k "topParts"); auto.
  destruct (String.eqb_spec k "topAssets"); auto.
  destruct (String.eqb_spec k "trends"); [discriminate|].
  destruct (String.eqb_spec k "mfcStats"); auto. discriminate.
Qed.

(** C1, as stated, fails: the object returned for the empty snapshot has
    ranked lists for three dimensions only (parts, assets, MFC); nothing in
    it stands for the reason dimension. *)
Lemma empty_snapshot_has_no_fourth_dimension :
  ~ sentinel_for_each_dimension
      (performAIAnalysis Host.iso_date_parse Host.utc 0 []).
Proof.
  intros (f & Hinj & H).
  pose proof (ranked_property_names _ _ _ (H PartNumberDim)) as H1.
  pose proof (ranked_property_names _ _ _ (H AssetDim)) as H2.
  pose proof (ranked_property_names _ _ _ (H MfcDim)) as H3.
  pose proof (ranked_property_names _ _ _ (H ReasonDim)) as H4.
  pose proof (Hinj PartNumberDim AssetDim) as I12.
  pose proof (Hinj PartNumberDim MfcDim) as I13.
  pose proof (Hinj PartNumberDim ReasonDim) as I14.
  pose proof (Hinj AssetDim MfcDim) as I23.
  pose proof (Hinj AssetDim ReasonDim) as I24.
  pose proof (Hinj MfcDim ReasonDim) as I34.
  clear H Hinj.
  destruct H1 as [E1|[E1|E1]], H2 as [E2|[E2|E2]], H3 as [E3|[E3|E3]],
           H4 as [E4|[E4|E4]];
    rewrite E1, E2, E3, E4 in *;
    first [ discriminate (I12 eq_refl) | discriminate (I13 eq_refl)
          | discriminate (I14 eq_refl) | discriminate (I23 eq_refl)
          | discriminate (I24 eq_refl) | discriminate (I34 eq_refl) ].
Qed.

(** C1 (amended): for the empty snapshot the analysis returns exactly the
    sentinel object: the single entry [{name: "No data yet", count: 0}] for
    each of the three returned dimensions (part number, asset, MFC) and the
    trend sentinel [{trend: "Insufficient data", recentCount: 0,
    totalCount: 0}]; these four are all the properties of the result. *)
Theorem empty_snapshot_sentinel_object
    (Date_parse : string -> option Z) (LocalTZA : Z -> bool -> Z) (now : Z) :
  performAIAnalysis Date_parse LocalTZA now []
  = {| topParts := [ {| name := "No data yet"; count := Num 0 |} ];
       topAssets := [ {| name := "No data yet"; count := Num 0 |} ];
       trends := {| trend := "Insufficient data";
                    recentCount := 0; totalCount := 0 |};
       mfcStats := [ {| name := "No data yet"; count := Num 0 |} ] |}
  /\ own_properties (performAIAnalysis Date_parse LocalTZA now [])
     = [ ("topParts", Ranked [sentinel]);
         ("topAssets", Ranked [sentinel]);
         ("trends", TrendInfo {| trend := "Insufficient data";
                                 recentCount := 0; totalCount := 0 |});
         ("mfcStats", Ranked [sentinel]) ].
Proof. split; reflexivity. Qed.

(** ** Recency of a record *)

(** C2: the analysis of a record that carries both properties.  The filter
    parses [date], so the record is not counted as recent, although its
    [removalDate] lies inside the 30-day window (and [exportToExcel] gives
    [removalDate] the precedence). *)
Theorem recency_prefers_date_over_removalDate :
  let now := mid_february_2024 in
  let cutoff := thirtyDaysAgo Host.utc now in
  date_ge (new_Date Host.iso_date_parse
             (effective_date_spec both_dates_record)) cutoff = true
  /\ date_ge (new_Date Host.iso_date_parse
                (removalDate both_dates_record)) cutoff = true
  /\ is_recent Host.iso_date_parse Host.utc now both_dates_record = false
  /\ recentCount (trends (performAIAnalysis Host.iso_date_parse Host.utc now
                            [both_dates_record])) = 0.
Proof. repeat split; vm_compute; reflexivity. Qed.

(** ** Trend classification *)

(** C3: on a non-empty snapshot the trend is "Increasing failure rate"
    exactly when [recentCount > totalCount * 0.6] holds for the Numbers the
    script compares, and "Stable failure rate" otherwise.  For every array
    length (below 2^32) the binary64 comparison is the exact strict
    comparison 5 * recentCount > 3 * totalCount; 6 out of 10 is stable and
    7 out of 10 is increasing. *)
Theorem trend_threshold_rule
    (Date_parse : string -> option Z) (LocalTZA : Z -> bool -> Z) (now : Z)
    (data : list SubmissionRecord) :
  data <> [] ->
  let t := trends (performAIAnalysis Date_parse LocalTZA now data) in
  recentCount t = List.length (filter (is_recent Date_parse LocalTZA now) data)
  /\ totalCount t = List.length data
  /\ (trend t = "Increasing failure rate"
      <-> above_threshold (recentCount t) (totalCount t) = true)
  /\ (trend t = "Stable failure rate"
      <-> above_threshold (recentCount t) (totalCount t) = false)
  /\ ((Z.of_nat (List.length data) < 2 ^ 32)%Z ->
      (trend t = "Increasing failure rate"
       <-> 3 * totalCount t < 5 * recentCount t)
      /\ (trend t = "Stable failure rate"
          <-> 5 * recentCount t <= 3 * totalCount t))
  /\ (totalCount t = 10 -> recentCount t = 6 ->
      trend t = "Stable failure rate")
  /\ (totalCount t = 10 -> recentCount t = 7 ->
      trend t = "Increasing failure rate").
Proof.
  intros Hne t; subst t.
  unfold performAIAnalysis.
  destruct data as [|r data]; [congruence|].
  cbn [List.length Nat.eqb trends recentCount totalCount trend].
  set (recent := List.length (filter _ _)).
  set (total := S (List.length data)).
  assert (Hle : recent <= total) by apply filter_length_le.
  assert (Hinc : (if above_threshold recent total
                  then "Increasing failure rate" else "Stable failure rate")
                 = "Increasing failure rate"
                 <-> above_threshold recent total = true)
    by (destruct (above_threshold recent total); split;
        reflexivity || discriminate).
  assert (Hst : (if above_threshold recent total
                 then "Increasing failure rate" else "Stable failure rate")
                = "Stable failure rate"
                <-> above_threshold recent total = false)
    by (destruct (above_threshold recent total); split;
        reflexivity || discriminate).
  split; [reflexivity|]. split; [reflexivity|].
  split; [exact Hinc|]. split; [exact Hst|].
  split; [|split].
  - intros Hb. fold total in Hb.
    rewrite Hinc, Hst, above_threshold_exact by (unfold total; lia).
    split; [apply Nat.ltb_lt | apply Nat.ltb_ge].
  - intros Ht Hr. apply Hst. rewrite Ht, Hr. vm_compute; reflexivity.
  - intros Ht Hr. apply Hinc. rewrite Ht, Hr. vm_compute; reflexivity.
Qed.

Lemma trend_threshold_rule_witness :
  recent_of_ten 6 <> []
  /\ trend (trends (performAIAnalysis Host.iso_date_parse Host.utc
                      mid_february_2024 (recent_of_ten 6)))
     = "Stable failure rate".
Proof.
  assert (Hne : recent_of_ten 6 <> []) by discriminate.
  split; [exact Hne|].
  destruct (trend_threshold_rule Host.iso_date_parse Host.utc
              mid_february_2024 (recent_of_ten 6) Hne)
    as (R & T & _ & _ & _ & H & _).
  apply H; [rewrite T | rewrite R]; vm_compute; reflexivity.
Defined.

(** ** Tie-breaking *)




(** ** Records without a usable date *)

(** A record for which the value the code reads, [date || removalDate],
    is absent or does not parse is not counted in [recentCount] and is
    counted in [totalCount]: putting it anywhere into a snapshot leaves
    [recentCount] as it was and adds one to [totalCount]. *)
Lemma unread_date_is_not_recent
    (Date_parse : string -> option Z) (LocalTZA : Z -> bool -> Z) (now : Z)
    (before_it after_it : list SubmissionRecord) (record : SubmissionRecord) :
  (date record = None /\ removalDate record = None)
  \/ new_Date Date_parse (logical_or (date record) (removalDate record))
     = None ->
  let with_it :=
    trends (performAIAnalysis Date_parse LocalTZA now
              (before_it ++ record :: after_it)) in
  let without_it :=
    trends (performAIAnalysis Date_parse LocalTZA now
              (before_it ++ after_it)) in
  is_recent Date_parse LocalTZA now record = false
  /\ recentCount with_it = recentCount without_it
  /\ totalCount with_it = totalCount without_it + 1.
Proof.
  intros H with_it without_it.
  assert (Hr : is_recent Date_parse LocalTZA now record = false).
  { unfold is_recent. destruct H as [[-> ->]| ->]; reflexivity. }
  split; [exact Hr|].
  destruct (trends_counts Date_parse LocalTZA now
              (before_it ++ record :: after_it)) as [R1 T1].
  destruct (trends_counts Date_parse LocalTZA now
              (before_it ++ after_it)) as [R2 T2].
  subst with_it without_it. rewrite R1, R2, T1, T2.
  split.
  - now apply filter_length_middle.
  - rewrite !length_app; simpl; lia.
Qed.

(** C5: a record whose [removalDate] does not parse and whose legacy
    [date] lies five days before the evaluation time.  Its date as the
    specification words it ([removalDate], with [date] as the alias) does
    not parse, so the record is to be left out of [recentCount]; the code
    reads [date || removalDate], parses the legacy date and counts the
    record as recent.  Put into the mock data it raises [recentCount] by
    one. *)
Theorem unparsable_removalDate_is_counted_recent :
  effective_date_spec garbled_removal_record = Some "not a date"
  /\ new_Date Host.iso_date_parse (effective_date_spec garbled_removal_record)
     = None
  /\ is_recent Host.iso_date_parse Host.utc mid_february_2024
       garbled_removal_record = true
  /\ trends (performAIAnalysis Host.iso_date_parse Host.utc mid_february_2024
               [garbled_removal_record])
     = {| trend := "Increasing failure rate";
          recentCount := 1; totalCount := 1 |}
  /\ recentCount
       (trends (performAIAnalysis Host.iso_date_parse Host.utc
                  mid_february_2024 (mockData ++ [garbled_removal_record])))
     = 1 + recentCount
             (trends (performAIAnalysis Host.iso_date_parse Host.utc
                        mid_february_2024 mockData)).
Proof. repeat split; vm_compute; reflexivity. Qed.

(** ** Keys inherited from [Object.prototype] *)

(** C6: the analysis of a record keyed [__proto__].  The record adds
    nothing to the MFC table: the breakdown is empty and its counts sum to 0
    for a snapshot of one record.  Under the key [constructor] the count is
    a string, not the number 1. *)
Theorem frequency_sum_misses_inherited_key :
  let a := performAIAnalysis Host.iso_date_parse Host.utc mid_february_2024
             [proto_record] in
  let b := performAIAnalysis Host.iso_date_parse Host.utc mid_february_2024
             [constructor_record] in
  mfcCounts (count_all [proto_record]) = []
  /\ mfcStats a = []
  /\ count_sum (mfcStats a) = 0
  /\ totalCount (trends a) = 1
  /\ mfcStats b = [ {| name := "constructor";
                       count := Text (SourceText "Object") 1 |} ].
Proof. repeat split; vm_compute; reflexivity. Qed.

(** C7: the analysis of a record keyed [__proto__].  The snapshot has one
    distinct part number, asset and site, yet the three ranked lists are
    empty. *)
Theorem ranked_lists_miss_inherited_key :
  let a := performAIAnalysis Host.iso_date_parse Host.utc mid_february_2024
             [proto_record] in
  distinct (keys_of partNumber [proto_record]) = 1
  /\ distinct (keys_of removedFrom [proto_record]) = 1
  /\ distinct (keys_of mfc [proto_record]) = 1
  /\ List.length (topParts a) = 0
  /\ List.length (topAssets a) = 0
  /\ List.length (mfcStats a) = 0.
Proof. repeat split; vm_compute; reflexivity. Qed.

(** C10: the formatter on the analysis of a record keyed [__proto__].  For
    this non-empty snapshot the top-parts list is empty, so the formatter
    takes its no-data branch; under the key [constructor] the count of the
    entry is a string, not a number that is at least 1. *)
Theorem no_data_branch_on_nonempty_snapshot :
  let a := performAIAnalysis Host.iso_date_parse Host.utc mid_february_2024
             [proto_record] in
  let b := performAIAnalysis Host.iso_date_parse Host.utc mid_february_2024
             [constructor_record] in
  [proto_record] <> []
  /\ topParts a = []
  /\ no_data (topParts a) = true
  /\ formatTopItems Host.v8_source (topParts a) = no_data_html
  /\ map count (topParts b) = [ Text (SourceText "Object") 1 ].
Proof.
  split; [discriminate|]. repeat split; vm_compute; reflexivity.
Qed.

(** ** The exported document *)

(** C8, as stated, fails: line breaks are not escaped, so a snapshot of
    three records, one of them with the comment [ok, replaced], splits into
    five lines when another comment holds a line break. *)
Lemma multiline_comment_adds_a_line :
  List.length multiline_snapshot = 3
  /\ In (commented 1 (Some "ok, replaced")) multiline_snapshot
  /\ includes "ok; replaced" (csvContent multiline_snapshot) = true
  /\ List.length (split_lines (csvContent multiline_snapshot)) = 5
  /\ List.length (split_lines (csvContent multiline_snapshot)) <> 1 + 3.
Proof.
  split; [reflexivity|]. split; [now left|].
  split; [vm_compute; reflexivity|].
  assert (E : List.length (split_lines (csvContent multiline_snapshot)) = 5)
    by (vm_compute; reflexivity).
  split; [exact E | rewrite E; discriminate].
Qed.

(** C8 (amended): in every exported record line the commas of the Comments
    text are replaced by semicolons and every other text cell is the
    property's text unchanged, without quoting; a comment [ok, replaced]
    therefore shows as [ok; replaced] in the export of every snapshot that
    holds it; and when no cell of the snapshot holds a line feed, splitting
    the document at line feeds yields the header line followed by one line
    per record (for a snapshot of 3 records, 1 + 3 lines). *)
Theorem export_commas_and_lines (formDatabase : list SubmissionRecord) :
  (forall row,
      row_cells row
      = [ id_cell (id row); raw (mfc row);
          raw (logical_or (removalDate row) (date row)); raw (taggedBy row);
          raw (itemType row); raw (partNumber row); raw (removedFrom row);
          raw (serviceCallId row); raw (reasonRemove row);
          replace_commas (raw (comments row)) ])
  /\ (forall s i,
         String.get i (replace_commas s)
         = option_map (fun c => if Ascii.eqb c "," then ";"%char else c)
             (String.get i s))
  /\ (forall row, In row formDatabase ->
         comments row = Some "ok, replaced" ->
         includes "ok; replaced" (csvContent formDatabase) = true)
  /\ (forall row text, In row formDatabase ->
         comments row = Some text ->
         includes (replace_commas text) (csvContent formDatabase) = true)
  /\ (forallb (fun row => forallb no_newline (row_cells row)) formDatabase
      = true ->
      split_lines (csvContent formDatabase)
      = join "," headers :: map csv_line formDatabase
      /\ List.length (split_lines (csvContent formDatabase))
         = 1 + List.length formDatabase).
Proof.
  assert (C : forall row text, In row formDatabase ->
            comments row = Some text ->
            includes (replace_commas text) (csvContent formDatabase) = true).
  { intros row text Hin Hc. unfold csvContent.
    apply (includes_join_join _ row); auto.
    unfold row_cells; rewrite Hc, !or_empty_raw.
    do 9 right; left; reflexivity. }
  split; [|split; [|split; [|split]]].
  - intros row; unfold row_cells; now rewrite !or_empty_raw.
  - intros s i; apply replace_commas_get.
  - intros row Hin Hc. exact (C row "ok, replaced" Hin Hc).
  - exact C.
  - intros H.
    assert (L : split_lines (csvContent formDatabase)
                = join "," headers :: map csv_line formDatabase).
    { unfold csvContent. apply split_lines_join.
      now apply csv_lines_newline_free. }
    split; [exact L|].
    rewrite L; simpl; now rewrite length_map.
Qed.

Lemma export_commas_and_lines_witness :
  includes "ok; replaced" (csvContent multiline_snapshot) = true
  /\ forallb (fun row => forallb no_newline (row_cells row)) comma_snapshot
     = true
  /\ includes "ok; replaced" (csvContent comma_snapshot) = true
  /\ List.length (split_lines (csvContent comma_snapshot)) = 1 + 3.
Proof.
  assert (H : forallb (fun row => forallb no_newline (row_cells row))
                comma_snapshot = true) by (vm_compute; reflexivity).
  destruct (export_commas_and_lines multiline_snapshot)
    as (_ & _ & M & _ & _).
  destruct (export_commas_and_lines comma_snapshot) as (_ & _ & R & _ & L).
  split; [|split; [exact H|split]].
  - apply (M (commented 1 (Some "ok, replaced"))); [|reflexivity].
    vm_compute; tauto.
  - apply (R (commented 1 (Some "ok, replaced"))); [|reflexivity].
    vm_compute; tauto.
  - exact (proj2 (L H)).
Defined.

Lemma join_record_lines header line rows :
  join newline (header :: map line rows)
  = (header ++ record_lines line rows)%string.
Proof.
  revert header; induction rows as [|row rows IH]; intros header.
  - simpl. now rewrite append_empty_r.
  - change (join newline (header :: map line (row :: rows)))
      with (header ++ newline ++ join newline (line row :: map line rows))%string.
    now rewrite IH.
Qed.

(** C9: the exported text is the header line followed, for each record and
    after a line feed, by the ten cells of the record with a comma between
    them; in every such line the Date cell (the third one) is [removalDate]
    when that property holds a non-empty text and otherwise the [date]
    property (also when [removalDate] is the empty text), and the cell of
    every absent property (the optional [serviceCallId] and [comments] among
    them, and the id) is the empty string. *)
Theorem export_date_and_absent_fields (formDatabase : list SubmissionRecord) :
  csvContent formDatabase
  = (ten_columns "ID" "MFC" "Date" "Tagged By" "Item Type" "Part Number"
       "Asset SN" "Service Call ID" "Reason" "Comments"
     ++ record_lines
          (fun row =>
             ten_columns (cell 0 row) (cell 1 row) (cell 2 row) (cell 3 row)
               (cell 4 row) (cell 5 row) (cell 6 row) (cell 7 row)
               (cell 8 row) (cell 9 row))
          formDatabase)%string
  /\ forall row,
       List.length (row_cells row) = 10
       /\ (forall s, removalDate row = Some s -> s <> "" -> cell 2 row = s)
       /\ (removalDate row = Some "" -> cell 2 row = raw (date row))
       /\ (truthy (removalDate row) = false -> cell 2 row = raw (date row))
       /\ (id row = None -> cell 0 row = "")
       /\ (mfc row = None -> cell 1 row = "")
       /\ (removalDate row = None -> date row = None -> cell 2 row = "")
       /\ (taggedBy row = None -> cell 3 row = "")
       /\ (itemType row = None -> cell 4 row = "")
       /\ (partNumber row = None -> cell 5 row = "")
       /\ (removedFrom row = None -> cell 6 row = "")
       /\ (serviceCallId row = None -> cell 7 row = "")
       /\ (reasonRemove row = None -> cell 8 row = "")
       /\ (comments row = None -> cell 9 row = "").
Proof.
  split.
  - unfold csvContent. rewrite join_record_lines. f_equal.
  - intros row. unfold cell, row_cells; cbn [nth List.length].
    repeat match goal with |- _ /\ _ => split end;
      try reflexivity;
      try (intros ->; reflexivity).
    + intros s -> Hs. apply String.eqb_neq in Hs.
      unfold or_empty, logical_or, truthy. rewrite Hs; simpl. now rewrite Hs.
    + intros ->. now rewrite !or_empty_raw.
    + intros Hr. rewrite !or_empty_raw. unfold logical_or; now rewrite Hr.
    + intros -> ->; reflexivity.
Qed.

(** * Part V: further properties of the script *)

(** ** The counts of the analysis *)

Lemma assoc_put k k' o p :
  assoc k (put o k' p) = if k =? k' then Some p else assoc k o.
Proof.
  induction o as [|[k0 p0] o IH]; simpl.
  - reflexivity.
  - destruct (String.eqb_spec k' k0) as [->|Hne]; simpl.
    + destruct (k =? k0); reflexivity.
    + rewrite IH.
      destruct (String.eqb_spec k k0) as [->|]; auto.
      apply String.eqb_neq in Hne. rewrite String.eqb_sym in Hne.
      now rewrite Hne.
Qed.

Lemma count_in_step o k k' :
  plain k' = true -> numeric o ->
  count_in (step o k') k = count_in o k + (if k =? k' then 1 else 0).
Proof.
  intros Hk Ho. unfold count_in.
  destruct (assoc k' o) as [p|] eqn:E.
  - destruct (numeric_assoc _ _ _ Ho E) as [n ->].
    rewrite (step_plain_old _ _ _ Hk E), assoc_put.
    destruct (String.eqb_spec k k') as [->|]; [|lia].
    rewrite E; simpl; lia.
  - rewrite (step_plain_new _ _ Hk E).
    replace (o ++ [(k', Num 1)]) with (put o k' (Num 1))
      by now apply put_absent.
    rewrite assoc_put.
    destruct (String.eqb_spec k k') as [->|]; [|lia].
    rewrite E; reflexivity.
Qed.

(** A tally over plain keys records, for each key, how often it occurs. *)
Lemma count_in_tally ks k : forall o,
  forallb plain ks = true -> numeric o ->
  count_in (tally ks o) k = count_in o k + count_occ string_dec ks k.
Proof.
  induction ks as [|k' ks IH]; intros o H Ho; simpl; [lia|].
  apply andb_prop in H as [Hk Hks].
  rewrite IH by auto using step_plain_numeric.
  rewrite count_in_step by auto.
  destruct (string_dec k' k) as [->|Hne].
  - rewrite String.eqb_refl; lia.
  - destruct (String.eqb_spec k k'); [congruence | lia].
Qed.

Lemma assoc_of_in k p (o : object) :
  NoDup (keys o) -> In (k, p) o -> assoc k o = Some p.
Proof.
  unfold keys; induction o as [|[k0 p0] o IH]; simpl; [tauto|].
  intros Hnd [H|H].
  - injection H as -> ->. now rewrite String.eqb_refl.
  - inversion Hnd as [|? ? Hn Hnd']; subst.
    destruct (String.eqb_spec k k0) as [->|]; [|auto].
    exfalso; apply Hn. change k0 with (fst (k0, p)). now apply in_map.
Qed.

Lemma tally_keys_plain ks :
  forallb plain ks = true ->
  NoDup (keys (tally ks [])) /\ forall k, In k (keys (tally ks [])) <-> In k ks.
Proof.
  intros H.
  destruct (tally_first_occurrence ks [] [] H numeric_nil
              empty_first_occurrence) as (Hnd & Hin & _).
  split; auto.
Qed.

(** The entries of a tally over plain keys. *)
Lemma tally_entry_plain ks k p :
  forallb plain ks = true ->
  In (k, p) (tally ks []) ->
  In k ks /\ p = Num (count_occ string_dec ks k).
Proof.
  intros H Hin.
  destruct (tally_keys_plain ks H) as [Hnd Hk].
  split.
  - apply Hk. change k with (fst (k, p)). now apply in_map.
  - pose proof (count_in_tally ks k [] H numeric_nil) as C.
    unfold count_in in C at 1. rewrite (assoc_of_in _ _ _ Hnd Hin) in C.
    pose proof (tally_numeric ks [] H numeric_nil) as Hn.
    unfold numeric in Hn; rewrite Forall_forall in Hn.
    destruct (Hn _ Hin) as [n E]; simpl in E; subst p.
    simpl in C. unfold count_in in C; simpl in C. now rewrite C.
Qed.

Lemma tally_has_key_plain ks k :
  forallb plain ks = true -> In k ks ->
  In (k, Num (count_occ string_dec ks k)) (tally ks []).
Proof.
  intros H Hin.
  destruct (tally_keys_plain ks H) as [_ Hk].
  apply Hk in Hin. unfold keys in Hin.
  apply in_map_iff in Hin as ([k' p] & E & Hin); simpl in E; subst k'.
  destruct (tally_entry_plain ks k p H Hin) as [_ ->]. exact Hin.
Qed.

Lemma names_of_entries l : map name (map to_entry l) = map fst l.
Proof. rewrite map_map; reflexivity. Qed.

Lemma NoDup_firstn {A : Type} n (l : list A) : NoDup l -> NoDup (firstn n l).
Proof.
  intros H. rewrite <- (firstn_skipn n l) in H.
  now apply NoDup_app_remove_r in H.
Qed.

Lemma ranked_names_NoDup ks n :
  forallb plain ks = true ->
  NoDup (map name (map to_entry (slice0 n (ranked (tally ks []))))).
Proof.
  intros H. rewrite names_of_entries. unfold slice0.
  rewrite <- firstn_map. apply NoDup_firstn.
  destruct (tally_keys_plain ks H) as [Hnd _].
  apply (Permutation_NoDup
           (Permutation_sym (Permutation_map fst (ranked_perm _)))).
  exact Hnd.
Qed.

(** ** Descending order *)

Lemma count_ge_trans x y z : count_ge x y -> count_ge y z -> count_ge x z.
Proof. unfold count_ge; lia. Qed.

Lemma insert_in x y l : In y (insert x l) -> y = x \/ In y l.
Proof.
  intros H. apply (Permutation_in _ (insert_perm x l)) in H.
  destruct H; auto.
Qed.

Lemma SortCompare_numeric x y :
  positive_entry x -> positive_entry y ->
  ((SortCompare x y >? 0)%Z = true <-> weight (snd x) < weight (snd y)).
Proof.
  intros [n Hx] [m Hy]. unfold SortCompare, comparefn.
  rewrite Hx, Hy; simpl ToNumber; cbn [minus weight].
  rewrite Z.gtb_ltb, Z.ltb_lt. lia.
Qed.

Lemma insert_sorted x l :
  positive_entry x -> Forall positive_entry l ->
  StronglySorted count_ge l -> StronglySorted count_ge (insert x l).
Proof.
  intros Hx Hl Hs. induction Hs as [|y l Hs IH Hy]; simpl.
  - repeat constructor.
  - inversion Hl as [|? ? Py Pl]; subst.
    destruct (SortCompare x y >? 0)%Z eqn:E.
    + apply (SortCompare_numeric x y Hx Py) in E.
      constructor; [now apply IH|].
      rewrite Forall_forall in Hy |- *. intros z Hz.
      apply insert_in in Hz as [->|Hz]; [unfold count_ge; lia | auto].
    + assert (Hle : weight (snd y) <= weight (snd x)).
      { destruct (Nat.le_gt_cases (weight (snd y)) (weight (snd x))); auto.
        apply (SortCompare_numeric x y Hx Py) in H. congruence. }
      constructor; [now constructor|].
      constructor; [exact Hle|].
      rewrite Forall_forall in Hy |- *. intros z Hz.
      apply (count_ge_trans _ y); auto.
Qed.

(** On a table of numbers the sort yields descending counts. *)
Lemma sort_sorted l :
  Forall positive_entry l -> StronglySorted count_ge (sort l).
Proof.
  unfold sort; induction 1 as [|x l Hx Hl IH]; simpl; [constructor|].
  apply insert_sorted; auto.
  rewrite Forall_forall in Hl |- *. intros z Hz. apply Hl.
  now apply (Permutation_in _ (sort_perm l)).
Qed.

Lemma ranked_sorted_plain ks :
  forallb plain ks = true ->
  StronglySorted count_ge (ranked (tally ks [])).
Proof.
  intros H. unfold ranked. apply sort_sorted.
  pose proof (tally_numeric ks [] H numeric_nil) as Hn.
  unfold numeric in Hn. rewrite Forall_forall in Hn |- *.
  intros z Hz. apply Hn. now apply (Permutation_in _ (Object_entries_perm _)).
Qed.

Lemma sorted_positions {A : Type} (R : A -> A -> Prop) l i j x y :
  StronglySorted R l -> i < j ->
  nth_error l i = Some x -> nth_error l j = Some y -> R x y.
Proof.
  intros Hs Hij Hi Hj.
  apply (sorted_before R l); auto.
  now apply (before_of_positions l i j).
Qed.

(** ** What the ranked lists say *)

(** X1: when no key names a property inherited from [Object.prototype],
    the names of a ranked list are distinct keys of the snapshot, the
    count of each entry is the number of records that carry its key, and a
    list that is not cut short (the MFC breakdown; parts and assets when
    there are at most five distinct keys) names every key of the
    snapshot. *)
Theorem ranked_counts_are_occurrences
    (Date_parse : string -> option Z) (LocalTZA : Z -> bool -> Z) (now : Z)
    (rk : ranking) (data : list SubmissionRecord) :
  data <> [] ->
  forallb plain (keys_of (selector_of rk) data) = true ->
  let ks := keys_of (selector_of rk) data in
  let items := list_of rk (performAIAnalysis Date_parse LocalTZA now data) in
  NoDup (map name items)
  /\ (forall e, In e items ->
        In (name e) ks /\ count e = Num (count_occ string_dec ks (name e)))
  /\ (match limit_of rk with
      | Some m => distinct ks <= m
      | None => True
      end ->
      forall k, In k ks -> In k (map name items)).
Proof.
  intros Hne Hp ks items. destruct data as [|r data]; [congruence|].
  destruct (list_of_nonempty Date_parse LocalTZA now rk r data)
    as (n & E & Hn).
  fold ks in E, Hn, Hp. subst items. rewrite E.
  split; [now apply ranked_names_NoDup|]. split.
  - intros e He. apply in_map_iff in He as ([k p] & <- & Hkp).
    apply In_firstn, (Permutation_in _ (ranked_perm _)) in Hkp.
    now apply tally_entry_plain.
  - intros Hall k Hk.
    assert (Hfull : slice0 n (ranked (tally ks [])) = ranked (tally ks [])).
    { unfold slice0. apply firstn_all2.
      rewrite (Permutation_length (ranked_perm _)), tally_length_distinct
        by auto.
      destruct (limit_of rk); subst n; [exact Hall|].
      rewrite (Permutation_length (ranked_perm _)), tally_length_distinct
        by auto. lia. }
    rewrite Hfull, names_of_entries.
    apply (Permutation_in _ (Permutation_sym
                               (Permutation_map fst (ranked_perm _)))).
    apply (tally_keys_plain ks Hp). exact Hk.
Qed.

Lemma ranked_counts_are_occurrences_witness :
  mockData <> []
  /\ forallb plain (keys_of partNumber mockData) = true
  /\ forall e,
       In e (topParts (performAIAnalysis Host.iso_date_parse Host.utc
                         mid_february_2024 mockData)) ->
       count e = Num (count_occ string_dec (keys_of partNumber mockData)
                        (name e)).
Proof.
  assert (Hne : mockData <> []) by discriminate.
  split; [exact Hne|]. split; [reflexivity|].
  intros e He.
  apply (ranked_counts_are_occurrences Host.iso_date_parse Host.utc
           mid_february_2024 TopParts mockData Hne eq_refl).
  exact He.
Defined.

(** X2: when no key names an inherited property, the counts of a ranked
    list never increase from one position to a later one. *)
Theorem ranked_lists_descend
    (Date_parse : string -> option Z) (LocalTZA : Z -> bool -> Z) (now : Z)
    (rk : ranking) (data : list SubmissionRecord) (i j : nat)
    (e1 e2 : Entry) :
  forallb plain (keys_of (selector_of rk) data) = true ->
  let items := list_of rk (performAIAnalysis Date_parse LocalTZA now data) in
  i < j ->
  nth_error items i = Some e1 ->
  nth_error items j = Some e2 ->
  exists c1 c2, count e1 = Num c1 /\ count e2 = Num c2 /\ c2 <= c1.
Proof.
  intros Hp items Hij H1 H2. subst items.
  destruct data as [|r data].
  - rewrite list_of_empty in H1, H2.
    destruct j as [|[|j]]; try discriminate; lia.
  - destruct (list_of_nonempty Date_parse LocalTZA now rk r data)
      as (n & E & _).
    rewrite E in H1, H2. unfold slice0 in H1, H2.
    apply nth_error_map_firstn in H1 as (x1 & H1 & <- & _).
    apply nth_error_map_firstn in H2 as (x2 & H2 & <- & _).
    pose proof (sorted_positions _ _ _ _ _ _
                  (ranked_sorted_plain _ Hp) Hij H1 H2) as Hge.
    pose proof (tally_numeric _ [] Hp numeric_nil) as Hn.
    unfold numeric in Hn; rewrite Forall_forall in Hn.
    destruct (Hn x1) as [c1 E1].
    { apply (Permutation_in _ (ranked_perm _)), (nth_error_In _ _ H1). }
    destruct (Hn x2) as [c2 E2].
    { apply (Permutation_in _ (ranked_perm _)), (nth_error_In _ _ H2). }
    exists (S c1), (S c2). cbn [count to_entry].
    unfold count_ge in Hge. rewrite E1, E2 in Hge |- *.
    simpl in Hge. auto.
Qed.

Lemma ranked_lists_descend_witness :
  forallb plain (keys_of partNumber mockData) = true
  /\ 1 < 2
  /\ exists c1 c2,
       Num 2 = Num c1 /\ Num 1 = Num c2 /\ c2 <= c1.
Proof.
  split; [reflexivity|]. split; [lia|].
  apply (ranked_lists_descend Host.iso_date_parse Host.utc
           mid_february_2024 TopParts mockData 1 2
           {| name := "PCB-445"; count := Num 2 |}
           {| name := "SEN-220"; count := Num 1 |});
    [reflexivity | lia | reflexivity | reflexivity].
Defined.

(** X3: when no key names an inherited property, the first entry of a
    ranked list is a most frequent key of the snapshot, and a key that a
    list leaves out occurs at most as often as every key the list shows. *)
Theorem top_lists_hold_the_most_frequent
    (Date_parse : string -> option Z) (LocalTZA : Z -> bool -> Z) (now : Z)
    (rk : ranking) (data : list SubmissionRecord) :
  data <> [] ->
  forallb plain (keys_of (selector_of rk) data) = true ->
  let ks := keys_of (selector_of rk) data in
  let items := list_of rk (performAIAnalysis Date_parse LocalTZA now data) in
  (exists e0 rest,
      items = e0 :: rest
      /\ forall k, count_occ string_dec ks k <= weight (count e0))
  /\ (forall k e,
        In k ks -> ~ In k (map name items) -> In e items ->
        count_occ string_dec ks k <= weight (count e)).
Proof.
  intros Hne Hp ks items. destruct data as [|r data]; [congruence|].
  destruct (list_of_nonempty Date_parse LocalTZA now rk r data)
    as (n & E & Hn).
  fold ks in E, Hn, Hp. subst items. rewrite E.
  set (full := ranked (tally ks [])) in *.
  assert (Hs : StronglySorted count_ge full) by now apply ranked_sorted_plain.
  assert (Hpos : forall k, In k ks ->
            exists j, nth_error full j
                      = Some (k, Num (count_occ string_dec ks k))).
  { intros k Hk. apply In_nth_error.
    apply (Permutation_in _ (Permutation_sym (ranked_perm _))).
    now apply tally_has_key_plain. }
  assert (Hlen : List.length full = distinct ks).
  { unfold full.
    now rewrite (Permutation_length (ranked_perm _)), tally_length_distinct. }
  assert (Hd : 0 < distinct ks).
  { unfold distinct, ks.
    destruct (nodup string_dec (keys_of (selector_of rk) (r :: data)))
      as [|z l] eqn:Z; [|simpl; lia].
    assert (I : In (ToPropertyKey (selector_of rk r))
                  (nodup string_dec (keys_of (selector_of rk) (r :: data))))
      by (apply nodup_In; now left).
    now rewrite Z in I. }
  assert (Hn0 : 0 < n).
  { destruct (limit_of rk) as [m|] eqn:Em; subst n.
    - destruct rk; simpl in Em; try discriminate; injection Em as <-; lia.
    - fold full. lia. }
  split.
  - destruct full as [|x0 full'] eqn:Ef; [simpl in Hlen; lia|].
    destruct n as [|n']; [lia|].
    exists (to_entry x0), (map to_entry (firstn n' full')).
    split; [reflexivity|].
    intros k. destruct (in_dec string_dec k ks) as [Hk|Hk].
    + destruct (Hpos k Hk) as [[|j] Hj].
      * simpl in Hj. injection Hj as ->. simpl. lia.
      * assert (G : count_ge x0 (k, Num (count_occ string_dec ks k))).
        { apply (sorted_positions count_ge (x0 :: full') 0 (S j));
            auto; lia. }
        exact G.
    + apply (count_occ_not_In string_dec) in Hk. rewrite Hk. lia.
  - intros k e Hk Hout He.
    apply In_nth_error in He as [i Hi].
    unfold slice0 in Hi, Hout.
    apply nth_error_map_firstn in Hi as (x & Hi & <- & Hin).
    destruct (Hpos k Hk) as [j Hj].
    destruct (Nat.lt_ge_cases j n) as [Hjn|Hjn].
    + exfalso. apply Hout. rewrite names_of_entries.
      change k with (fst (k, Num (count_occ string_dec ks k))).
      apply in_map. apply (nth_error_In _ j).
      rewrite nth_error_firstn.
      destruct (Nat.ltb_spec j n); [exact Hj | lia].
    + assert (G : count_ge x (k, Num (count_occ string_dec ks k))).
      { apply (sorted_positions count_ge full i j); auto; lia. }
      exact G.
Qed.

Lemma top_lists_hold_the_most_frequent_witness :
  mockData <> []
  /\ forallb plain (keys_of partNumber mockData) = true
  /\ exists e0 rest,
       topParts (performAIAnalysis Host.iso_date_parse Host.utc
                   mid_february_2024 mockData) = e0 :: rest
       /\ forall k,
            count_occ string_dec (keys_of partNumber mockData) k
            <= weight (count e0).
Proof.
  assert (Hne : mockData <> []) by discriminate.
  split; [exact Hne|]. split; [reflexivity|].
  apply (top_lists_hold_the_most_frequent Host.iso_date_parse Host.utc
           mid_february_2024 TopParts mockData Hne eq_refl).
Defined.

(** ** What the analysis reads *)

Lemma filter_length_map {A B : Type} (h : A -> B) (g : B -> bool) l :
  List.length (filter (fun x => g (h x)) l)
  = List.length (filter g (map h l)).
Proof.
  induction l as [|x l IH]; simpl; auto.
  destruct (g (h x)); simpl; now rewrite IH.
Qed.

(** The analysis is a function of the three key lists and of the date
    texts it parses. *)
Lemma analysis_ext Date_parse LocalTZA now data data' :
  keys_of partNumber data = keys_of partNumber data' ->
  keys_of removedFrom data = keys_of removedFrom data' ->
  keys_of mfc data = keys_of mfc data' ->
  map (fun r => logical_or (date r) (removalDate r)) data
  = map (fun r => logical_or (date r) (removalDate r)) data' ->
  performAIAnalysis Date_parse LocalTZA now data
  = performAIAnalysis Date_parse LocalTZA now data'.
Proof.
  intros Hp Ha Hm Hd.
  assert (Hlen : List.length data = List.length data').
  { apply (f_equal (@List.length _)) in Hm.
    unfold keys_of in Hm. now rewrite !length_map in Hm. }
  unfold performAIAnalysis. rewrite <- Hlen.
  destruct (List.length data =? 0)%nat; [reflexivity|].
  cbv zeta.
  rewrite !partCounts_tally, !assetCounts_tally, !mfcCounts_tally.
  rewrite Hp, Ha, Hm.
  assert (Hr : List.length (filter (is_recent Date_parse LocalTZA now) data)
               = List.length
                   (filter (is_recent Date_parse LocalTZA now) data')).
  { unfold is_recent.
    rewrite (filter_length_map
               (fun r => logical_or (date r) (removalDate r))
               (fun v => date_ge (new_Date Date_parse v)
                           (thirtyDaysAgo LocalTZA now)) data).
    rewrite (filter_length_map
               (fun r => logical_or (date r) (removalDate r))
               (fun v => date_ge (new_Date Date_parse v)
                           (thirtyDaysAgo LocalTZA now)) data').
    now rewrite Hd. }
  now rewrite Hr.
Qed.

Lemma Forall2_map_eq {A B : Type} (f : A -> B) (R : A -> A -> Prop) l l' :
  (forall x y, R x y -> f x = f y) -> Forall2 R l l' -> map f l = map f l'.
Proof.
  intros H; induction 1; simpl; auto. f_equal; auto.
Qed.

(** X4: the analysis reads only the part number, the asset, the site and
    the two dates of a record: snapshots that agree on these, record by
    record, get the same result, whatever their ids, reasons, comments and
    other properties. *)
Theorem analysis_reads_five_properties
    (Date_parse : string -> option Z) (LocalTZA : Z -> bool -> Z) (now : Z)
    (data data' : list SubmissionRecord) :
  Forall2 same_analysis_input data data' ->
  performAIAnalysis Date_parse LocalTZA now data
  = performAIAnalysis Date_parse LocalTZA now data'.
Proof.
  intros H. apply analysis_ext; unfold keys_of;
    apply (Forall2_map_eq _ same_analysis_input); auto;
    intros x y (E1 & E2 & E3 & E4 & E5); congruence.
Qed.

Lemma analysis_reads_five_properties_witness :
  Forall2 same_analysis_input [both_dates_record]
    [App.with_metadata 5 "2024-02-15T12:26:40.000Z" ["photo.jpg"]
       both_dates_record]
  /\ performAIAnalysis Host.iso_date_parse Host.utc mid_february_2024
       [both_dates_record]
     = performAIAnalysis Host.iso_date_parse Host.utc mid_february_2024
         [App.with_metadata 5 "2024-02-15T12:26:40.000Z" ["photo.jpg"]
            both_dates_record].
Proof.
  assert (H : Forall2 same_analysis_input [both_dates_record]
                [App.with_metadata 5 "2024-02-15T12:26:40.000Z"
                   ["photo.jpg"] both_dates_record]).
  { constructor; [|constructor]. repeat split. }
  split; [exact H|].
  apply (analysis_reads_five_properties _ _ _ _ _ H).
Defined.

(** X5: a record without a part number (asset, site) is counted under the
    key [undefined], together with the records whose part number is the
    text [undefined]: writing that text into every absent property leaves
    the result of the analysis unchanged. *)
Theorem absent_is_counted_as_undefined
    (Date_parse : string -> option Z) (LocalTZA : Z -> bool -> Z) (now : Z)
    (data : list SubmissionRecord) :
  performAIAnalysis Date_parse LocalTZA now
    (map with_undefined_spelled_out data)
  = performAIAnalysis Date_parse LocalTZA now data.
Proof.
  apply analysis_ext; unfold keys_of; rewrite map_map;
    apply map_ext; intros r; reflexivity.
Qed.

(** X6: on a non-empty snapshot (of fewer than 2^32 records) all of whose
    records are recent the trend is "Increasing failure rate" (a single
    recent submission is enough), and when no record is recent it is
    "Stable failure rate". *)
Theorem trend_of_all_or_none_recent
    (Date_parse : string -> option Z) (LocalTZA : Z -> bool -> Z) (now : Z)
    (data : list SubmissionRecord) :
  data <> [] ->
  (Z.of_nat (List.length data) < 2 ^ 32)%Z ->
  let t := trends (performAIAnalysis Date_parse LocalTZA now data) in
  (forallb (is_recent Date_parse LocalTZA now) data = true ->
   trend t = "Increasing failure rate" /\ recentCount t = totalCount t)
  /\ (forallb (fun r => negb (is_recent Date_parse LocalTZA now r)) data
      = true ->
      trend t = "Stable failure rate" /\ recentCount t = 0).
Proof.
  intros Hne Hb t; subst t. unfold performAIAnalysis.
  destruct data as [|r data]; [congruence|].
  cbn [List.length Nat.eqb trends recentCount totalCount trend].
  set (all := r :: data) in *.
  split; intros H.
  - assert (E : filter (is_recent Date_parse LocalTZA now) all = all).
    { rewrite forallb_forall in H. clear -H.
      induction all as [|x l IH]; simpl; auto.
      rewrite (H x) by now left. f_equal. apply IH.
      intros y Hy; apply H; now right. }
    rewrite E. cbn [List.length all].
    rewrite above_threshold_exact by (simpl in Hb; lia).
    split; [|reflexivity].
    destruct (Nat.ltb_spec (3 * S (List.length data))
                (5 * S (List.length data))); [reflexivity | lia].
  - assert (E : filter (is_recent Date_parse LocalTZA now) all = []).
    { apply filter_nil_of_forall. rewrite forallb_forall in H.
      intros x Hx. apply H in Hx. now destruct (is_recent _ _ _ x). }
    rewrite E. cbn [List.length].
    rewrite above_threshold_exact by (simpl in Hb; lia).
    split; reflexivity.
Qed.

Lemma trend_of_all_or_none_recent_witness :
  [removed_on "2024-02-10"] <> []
  /\ (Z.of_nat (List.length [removed_on "2024-02-10"]) < 2 ^ 32)%Z
  /\ forallb (is_recent Host.iso_date_parse Host.utc mid_february_2024)
       [removed_on "2024-02-10"] = true
  /\ trend (trends (performAIAnalysis Host.iso_date_parse Host.utc
                      mid_february_2024 [removed_on "2024-02-10"]))
     = "Increasing failure rate".
Proof.
  assert (Hne : [removed_on "2024-02-10"] <> []) by discriminate.
  assert (Hb : (Z.of_nat (List.length [removed_on "2024-02-10"]) < 2 ^ 32)%Z)
    by (simpl; lia).
  assert (Hr : forallb (is_recent Host.iso_date_parse Host.utc
                          mid_february_2024)
                 [removed_on "2024-02-10"] = true)
    by (vm_compute; reflexivity).
  split; [exact Hne|]. split; [exact Hb|]. split; [exact Hr|].
  destruct (trend_of_all_or_none_recent Host.iso_date_parse Host.utc
              mid_february_2024 [removed_on "2024-02-10"] Hne Hb)
    as [H _].
  exact (proj1 (H Hr)).
Defined.

Lemma filter_length_perm {A : Type} (p : A -> bool) l l' :
  Permutation l l' ->
  List.length (filter p l) = List.length (filter p l').
Proof.
  induction 1 as [|x l l' _ IH|x y l|l l' l'' _ IH1 _ IH2]; simpl; auto.
  - destruct (p x); simpl; now rewrite IH.
  - destruct (p x), (p y); reflexivity.
  - congruence.
Qed.

(** X7: the trend, the recent count and the total count do not depend on
    the order of the records in the snapshot. *)
Theorem trends_ignore_record_order
    (Date_parse : string -> option Z) (LocalTZA : Z -> bool -> Z) (now : Z)
    (data data' : list SubmissionRecord) :
  Permutation data data' ->
  trends (performAIAnalysis Date_parse LocalTZA now data)
  = trends (performAIAnalysis Date_parse LocalTZA now data').
Proof.
  intros H. unfold performAIAnalysis.
  rewrite <- (Permutation_length H).
  destruct (List.length data =? 0)%nat; [reflexivity|].
  cbn [trends].
  now rewrite (filter_length_perm _ _ _ H).
Qed.

Lemma trends_ignore_record_order_witness :
  Permutation mockData (rev mockData)
  /\ trends (performAIAnalysis Host.iso_date_parse Host.utc
               mid_february_2024 mockData)
     = trends (performAIAnalysis Host.iso_date_parse Host.utc
                 mid_february_2024 (rev mockData)).
Proof.
  assert (H : Permutation mockData (rev mockData))
    by apply Permutation_rev.
  split; [exact H|].
  apply (trends_ignore_record_order _ _ _ _ _ H).
Defined.

(** ** The blocks of [formatTopItems] *)

Lemma mapi_from_later ns items : forall i,
  mapi_from (S i) (item_html ns) items = map (later_block ns) items.
Proof.
  induction items as [|item items IH]; intros i; simpl; [reflexivity|].
  f_equal. apply IH.
Qed.

Lemma In_mapi_from {A B : Type} (f : A -> nat -> B) x l : forall i,
  In x l -> exists j, In (f x j) (mapi_from i f l).
Proof.
  induction l as [|y l IH]; intros i; simpl; [tauto|].
  intros [->|H].
  - exists i; now left.
  - destruct (IH (S i) H) as (j & Hj). exists j; now right.
Qed.

Lemma item_html_name ns item i :
  exists pre post,
    item_html ns item i
    = (pre ++ ("<strong>" ++ name item ++ "</strong>") ++ post)%string.
Proof.
  exists (opening (i =? 0)%nat ++ newline ++ "            ")%string.
  exists ("<br>" ++ newline ++ "            <small>"
          ++ ToString ns (count item) ++ " occurrences</small>" ++ newline
          ++ "        </div>")%string.
  rewrite !append_assoc.
  destruct i; reflexivity.
Qed.

Lemma item_html_count ns item i :
  exists pre post,
    item_html ns item i
    = (pre ++ ("<small>" ++ ToString ns (count item) ++ " occurrences</small>")
       ++ post)%string.
Proof.
  exists (opening (i =? 0)%nat ++ newline ++ "            <strong>"
          ++ name item ++ "</strong><br>" ++ newline ++ "            ")%string.
  exists (newline ++ "        </div>")%string.
  rewrite !append_assoc.
  destruct i; reflexivity.
Qed.

Lemma includes_nested sub s a b pre post :
  s = (a ++ sub ++ b)%string ->
  includes sub (pre ++ s ++ post) = true.
Proof.
  intros ->. rewrite !append_assoc, <- (append_assoc pre a).
  apply includes_append.
Qed.

(** X8: in the markup of a list that is not the no-data case, the block of
    the first entry is the only highlighted one: the markup is the
    highlighted block of the first entry followed by the plain blocks of the
    others, whatever their counts are. *)
Theorem only_the_first_block_is_highlighted ns items :
  no_data items = false ->
  exists item0 rest,
    items = item0 :: rest
    /\ formatTopItems ns items
       = join "" (first_block ns item0 :: map (later_block ns) rest)
    /\ String.prefix (opening true) (first_block ns item0) = true
    /\ forall item, In item rest ->
         String.prefix (opening false) (later_block ns item) = true.
Proof.
  intros H. destruct items as [|item0 rest]; [discriminate|].
  exists item0, rest. split; [reflexivity|]. split; [|split].
  - unfold formatTopItems. rewrite H. unfold mapi. cbn [mapi_from].
    now rewrite mapi_from_later.
  - reflexivity.
  - intros item _. reflexivity.
Qed.

Lemma only_the_first_block_is_highlighted_witness :
  exists item0 rest,
    [ {| name := "MOT-001"; count := Num 2 |};
      {| name := "PCB-445"; count := Num 2 |} ] = item0 :: rest
    /\ formatTopItems Host.v8_source
         [ {| name := "MOT-001"; count := Num 2 |};
           {| name := "PCB-445"; count := Num 2 |} ]
       = join "" (first_block Host.v8_source item0
                  :: map (later_block Host.v8_source) rest)
    /\ String.prefix (opening true) (first_block Host.v8_source item0) = true
    /\ forall item, In item rest ->
         String.prefix (opening false) (later_block Host.v8_source item) = true.
Proof.
  apply (only_the_first_block_is_highlighted Host.v8_source
           [ {| name := "MOT-001"; count := Num 2 |};
             {| name := "PCB-445"; count := Num 2 |} ]).
  reflexivity.
Defined.

(** X9: [formatTopItems] inserts names and counts into the markup as they
    are, without escaping: for every entry of a list that is not the no-data
    case, the markup contains the name between <strong> and </strong> and
    the text of the count between <small> and " occurrences</small>". *)
Theorem names_and_counts_are_inserted_verbatim ns items item :
  no_data items = false ->
  In item items ->
  includes ("<strong>" ++ name item ++ "</strong>") (formatTopItems ns items)
  = true
  /\ includes ("<small>" ++ ToString ns (count item) ++ " occurrences</small>")
       (formatTopItems ns items)
     = true.
Proof.
  intros H Hin. unfold formatTopItems; rewrite H.
  destruct (In_mapi_from (item_html ns) item items 0 Hin) as (j & Hj).
  destruct (join_In_split "" _ _ Hj) as (pre & post & E).
  fold (mapi (item_html ns) items) in E. rewrite E.
  split.
  - destruct (item_html_name ns item j) as (a & b & Ea).
    now apply (includes_nested _ _ a b).
  - destruct (item_html_count ns item j) as (a & b & Ea).
    now apply (includes_nested _ _ a b).
Qed.

Lemma names_and_counts_are_inserted_verbatim_witness :
  includes "<strong><b>MOT</b></strong>"
    (formatTopItems Host.v8_source
       [ {| name := "PCB-445"; count := Num 3 |};
         {| name := "<b>MOT</b>"; count := Num 2 |} ])
  = true
  /\ includes "<small>2 occurrences</small>"
       (formatTopItems Host.v8_source
          [ {| name := "PCB-445"; count := Num 3 |};
            {| name := "<b>MOT</b>"; count := Num 2 |} ])
     = true.
Proof.
  apply (names_and_counts_are_inserted_verbatim Host.v8_source
           [ {| name := "PCB-445"; count := Num 3 |};
             {| name := "<b>MOT</b>"; count := Num 2 |} ]
           {| name := "<b>MOT</b>"; count := Num 2 |}).
  - reflexivity.
  - right; left; reflexivity.
Defined.

(** ** The CSV text column by column *)

Lemma count_char_append c a b :
  count_char c (a ++ b) = count_char c a + count_char c b.
Proof. induction a as [|x a IH]; simpl; [reflexivity|]. rewrite IH; lia. Qed.

Lemma count_char_join c sep s l :
  count_char c (join sep (s :: l))
  = List.length l * count_char c sep
    + list_sum (map (count_char c) (s :: l)).
Proof.
  revert s; induction l as [|t l IH]; intros s.
  - simpl; lia.
  - change (join sep (s :: t :: l))
      with (s ++ sep ++ join sep (t :: l))%string.
    rewrite !count_char_append, IH. simpl; lia.
Qed.

Lemma count_char_replace_commas s : count_char "," (replace_commas s) = 0.
Proof.
  induction s as [|c s IH]; simpl; [reflexivity|].
  rewrite IH. destruct (Ascii.eqb c ",") eqn:E; [reflexivity|].
  now rewrite E.
Qed.

Lemma count_char_replace_commas_other c s :
  c <> ";"%char -> c <> ","%char ->
  count_char c (replace_commas s) = count_char c s.
Proof.
  intros H1 H2. induction s as [|x s IH]; simpl; [reflexivity|].
  rewrite IH. destruct (Ascii.eqb x ",") eqn:E; [|reflexivity].
  apply Ascii.eqb_eq in E; subst x.
  destruct (Ascii.eqb_spec ";" c), (Ascii.eqb_spec "," c); congruence.
Qed.

Lemma count_char_uint c d :
  (c =? ",")%char || (c =? LF)%char = true ->
  count_char c (NilEmpty.string_of_uint d) = 0.
Proof.
  intros H.
  assert (E : c = ","%char \/ c = LF).
  { apply orb_prop in H as [H|H]; apply Ascii.eqb_eq in H; auto. }
  induction d; simpl; try rewrite IHd; destruct E as [->| ->]; reflexivity.
Qed.

Lemma count_char_id_cell c i :
  (c =? ",")%char || (c =? LF)%char = true -> count_char c (id_cell i) = 0.
Proof.
  intros H. destruct i as [z|]; [|reflexivity].
  unfold id_cell. destruct (z =? 0)%Z; [reflexivity|].
  unfold string_of_Z, NilZero.string_of_int, NilZero.string_of_uint.
  assert (E : c = ","%char \/ c = LF).
  { apply orb_prop in H as [H'|H']; apply Ascii.eqb_eq in H'; auto. }
  destruct (Z.to_int z) as [d|d]; destruct d;
    cbn [count_char]; rewrite ?(count_char_uint c) by exact H;
    destruct E as [->| ->]; reflexivity.
Qed.

Lemma split_from_plain sep s : forall cur,
  count_char sep s = 0 -> split_from sep cur s = [(cur ++ s)%string].
Proof.
  induction s as [|c s IH]; simpl; intros cur H.
  - now rewrite append_empty_r.
  - destruct (Ascii.eqb c sep); [discriminate|].
    rewrite IH by exact H. now rewrite append_assoc.
Qed.

Lemma split_from_cell sep s rest : forall cur,
  count_char sep s = 0 ->
  split_from sep cur (s ++ String sep rest)
  = (cur ++ s)%string :: split_from sep "" rest.
Proof.
  induction s as [|c s IH]; simpl; intros cur H.
  - rewrite Ascii.eqb_refl. now rewrite append_empty_r.
  - destruct (Ascii.eqb c sep); [discriminate|].
    rewrite IH by exact H. now rewrite append_assoc.
Qed.

Lemma split_join sep s l :
  Forall (fun cell => count_char sep cell = 0) (s :: l) ->
  split sep (join (String sep "") (s :: l)) = s :: l.
Proof.
  unfold split; revert s; induction l as [|t l IH]; intros s H.
  - apply split_from_plain. now inversion H.
  - change (join (String sep "") (s :: t :: l))
      with (s ++ String sep (join (String sep "") (t :: l)))%string.
    inversion H as [|? ? Hs Hl]; subst.
    rewrite split_from_cell by exact Hs. simpl. f_equal.
    apply IH. exact Hl.
Qed.

Lemma split_lines_split s : split_lines s = split LF s.
Proof.
  unfold split_lines, split. generalize ""%string.
  induction s as [|c s IH]; intros cur; simpl; [reflexivity|].
  now rewrite !IH.
Qed.

Lemma plain_cell_spec s :
  plain_cell s = true <-> count_char "," s = 0 /\ count_char LF s = 0.
Proof.
  unfold plain_cell. rewrite andb_true_iff, !Nat.eqb_eq. tauto.
Qed.

Lemma join_snoc sep s l t :
  join sep ((s :: l) ++ [t]) = (join sep (s :: l) ++ sep ++ t)%string.
Proof.
  revert s; induction l as [|u l IH]; intros s; [reflexivity|].
  change (join sep ((s :: u :: l) ++ [t]))
    with (s ++ sep ++ join sep ((u :: l) ++ [t]))%string.
  rewrite IH.
  change (join sep (s :: u :: l)) with (s ++ sep ++ join sep (u :: l))%string.
  now rewrite !append_assoc.
Qed.

Lemma csvContent_snoc formDatabase row :
  csvContent (formDatabase ++ [row])
  = (csvContent formDatabase ++ newline ++ csv_line row)%string.
Proof.
  unfold csvContent. rewrite map_app. cbn [map].
  apply (join_snoc newline (join "," headers) (map csv_line formDatabase)).
Qed.

(** X10: the line the export writes for a record holds nine separating
    commas plus the commas typed into the eight text properties other than
    the comments (the date cell being [removalDate || date]); the id and the
    comments never add one. *)
Theorem csv_line_commas row :
  count_char "," (csv_line row)
  = 9 + commas_in [ mfc row; logical_or (removalDate row) (date row);
                    taggedBy row; itemType row; partNumber row;
                    removedFrom row; serviceCallId row; reasonRemove row ].
Proof.
  unfold csv_line, row_cells. rewrite count_char_join.
  unfold commas_in. cbn [map list_sum List.length].
  rewrite count_char_id_cell by reflexivity.
  rewrite count_char_replace_commas, !or_empty_raw.
  change (count_char "," ",") with 1.
  unfold list_sum; cbn [fold_right]. lia.
Qed.

(** X11: the header line and every record line of the export hold ten
    cells: when no exported cell holds a comma or a line feed, splitting the
    text at line feeds and every line at commas gives back the header and,
    record by record, the ten cells. *)
Theorem export_splits_back_into_cells formDatabase :
  forallb (fun row => forallb plain_cell (row_cells row)) formDatabase = true ->
  map (split ",") (split_lines (csvContent formDatabase))
  = headers :: map row_cells formDatabase.
Proof.
  intros H.
  assert (Hcells : forall row, In row formDatabase ->
            Forall (fun cell => count_char "," cell = 0) (row_cells row)
            /\ forallb no_newline (row_cells row) = true).
  { intros row Hrow. rewrite forallb_forall in H.
    pose proof (H row Hrow) as Hr. rewrite forallb_forall in Hr.
    split.
    - apply Forall_forall. intros cell Hc.
      pose proof (Hr cell Hc) as Hp. now apply plain_cell_spec in Hp.
    - apply forallb_forall. intros cell Hc.
      pose proof (Hr cell Hc) as Hp. apply plain_cell_spec in Hp as [_ Hp].
      clear - Hp. rename Hp into Hc. induction cell as [|c s IH]; [reflexivity|].
      simpl in Hc |- *. destruct (Ascii.eqb c LF); [discriminate|].
      now apply IH. }
  unfold csvContent. rewrite split_lines_join.
  - cbn [map]. f_equal. rewrite map_map.
    apply map_ext_in. intros row Hrow.
    unfold csv_line, row_cells. apply (split_join ",").
    apply (Hcells row Hrow).
  - apply csv_lines_newline_free. apply forallb_forall.
    intros row Hrow. apply (Hcells row Hrow).
Qed.

Lemma export_splits_back_into_cells_witness :
  map (split ",") (split_lines (csvContent mockData))
  = headers :: map row_cells mockData.
Proof.
  apply (export_splits_back_into_cells mockData). reflexivity.
Defined.

(** ** The globals under [saveForm], [removeFile] and sequences of events *)

Lemma filter_nil_iff {A : Type} (f : A -> bool) l :
  filter f l = [] <-> forall x, In x l -> f x = false.
Proof.
  induction l as [|y l IH]; simpl; [tauto|].
  destruct (f y) eqn:E; split.
  - discriminate.
  - intros H. rewrite (H y) in E by auto. discriminate.
  - intros H x [<-|Hx]; [exact E | now apply IH].
  - intros H. apply IH. auto.
Qed.

Lemma missingFields_nil data :
  App.missingFields data = []
  <-> forall field, In field App.requiredFields ->
        truthy (App.property_of data field) = true.
Proof.
  unfold App.missingFields. rewrite filter_nil_iff. split; intros H f Hf.
  - apply negb_false_iff. now apply H.
  - apply negb_false_iff. now apply H.
Qed.

Lemma saveForm_accepts callees now stamp data st :
  App.missingFields data = [] ->
  App.saveForm callees now stamp data st
  = if App.updateAnalytics_returns callees then
      ({| App.formDatabase :=
            App.formDatabase st
            ++ [App.with_metadata now stamp (App.attached st) data];
          App.attached := [] |},
       App.showMessage callees
         "Form saved successfully! Backup sent to Slack channel." "success")
    else
      ({| App.formDatabase :=
            App.formDatabase st
            ++ [App.with_metadata now stamp (App.attached st) data];
          App.attached := App.attached st |},
       App.Thrown).
Proof. intros H. unfold App.saveForm. now rewrite H. Qed.

Lemma saveForm_accepts_database callees now stamp data st :
  App.missingFields data = [] ->
  App.formDatabase (fst (App.saveForm callees now stamp data st))
  = App.formDatabase st
    ++ [App.with_metadata now stamp (App.attached st) data].
Proof.
  intros H. rewrite saveForm_accepts by exact H.
  now destruct (App.updateAnalytics_returns callees).
Qed.

Lemma saveForm_rejects callees now stamp data st :
  App.missingFields data <> [] ->
  App.saveForm callees now stamp data st
  = (st,
     App.showMessage callees
       ("Please fill in all required fields: "
        ++ join ", " (App.missingFields data)) "error").
Proof.
  intros H. unfold App.saveForm.
  destruct (App.missingFields data); [congruence | reflexivity].
Qed.

Lemma missingFields_with_metadata now stamp files data :
  App.missingFields (App.with_metadata now stamp files data)
  = App.missingFields data.
Proof. reflexivity. Qed.

Lemma complete_of_no_missing data :
  App.missingFields data = [] -> App.complete data = true.
Proof.
  intros H. pose proof (proj1 (missingFields_nil data) H) as Ht.
  assert (H1 := Ht "mfc" ltac:(simpl; tauto)).
  assert (H2 := Ht "removalDate" ltac:(simpl; tauto)).
  assert (H3 := Ht "partNumber" ltac:(simpl; tauto)).
  assert (H4 := Ht "removedFrom" ltac:(simpl; tauto)).
  assert (H5 := Ht "reasonRemove" ltac:(simpl; tauto)).
  cbn in H1, H2, H3, H4, H5.
  unfold App.complete, logical_or. now rewrite H1, H2, H3, H4, H5.
Qed.

Lemma splice_one_in_range {A : Type} (i : nat) (l : list A) :
  i < List.length l ->
  App.splice (Z.of_nat i) 1 l = firstn i l ++ skipn (S i) l.
Proof.
  intros H. unfold App.splice.
  destruct (Z.ltb_spec (Z.of_nat i) 0) as [Hneg|_]; [lia|].
  rewrite (Z.min_l (Z.of_nat i)) by lia.
  rewrite (Z.max_l 1 0) by lia.
  rewrite (Z.min_l 1) by lia.
  rewrite Nat2Z.id. do 2 f_equal. lia.
Qed.

Lemma splice_one_past_the_end {A : Type} (index : Z) (l : list A) :
  (Z.of_nat (List.length l) <= index)%Z -> App.splice index 1 l = l.
Proof.
  intros H. unfold App.splice.
  destruct (Z.ltb_spec index 0) as [Hneg|_]; [lia|].
  rewrite (Z.min_r index) by lia.
  rewrite Z.sub_diag, (Z.min_r _ 0) by lia.
  rewrite Z.add_0_r, Nat2Z.id, firstn_all, skipn_all. apply app_nil_r.
Qed.

Lemma handle_keeps_complete st e :
  Forall (fun r => App.complete r = true) (App.formDatabase st) ->
  Forall (fun r => App.complete r = true) (App.formDatabase (App.handle st e)).
Proof.
  intros H. destruct e as [files|index|callees now stamp data|]; try exact H.
  cbn [App.handle].
  destruct (App.missingFields data) as [|f fs] eqn:E.
  - rewrite saveForm_accepts_database by exact E.
    apply Forall_app; split; [exact H|].
    constructor; [|constructor].
    apply complete_of_no_missing.
    now rewrite missingFields_with_metadata.
  - rewrite saveForm_rejects by (rewrite E; discriminate). exact H.
Qed.

(** X12: [saveForm] stores nothing when a required field is absent or
    empty: the database and the attached files stay as they are, however
    the call of [showMessage] ends; when that call returns, what is shown
    is a message of type [error] that names the field, and when it throws
    (as it does while the script declares no [showMessage]) the handler ends
    with that exception. *)
Theorem saveForm_rejects_missing_field callees now stamp data st field :
  In field App.requiredFields ->
  truthy (App.property_of data field) = false ->
  fst (App.saveForm callees now stamp data st) = st
  /\ (App.showMessage_returns callees = true ->
      exists shown,
        snd (App.saveForm callees now stamp data st) = App.Shown shown
        /\ App.type shown = "error"
        /\ includes field (App.message shown) = true)
  /\ (App.showMessage_returns callees = false ->
      snd (App.saveForm callees now stamp data st) = App.Thrown).
Proof.
  intros Hin Hf.
  assert (Hm : In field (App.missingFields data)).
  { apply filter_In. split; [exact Hin | now rewrite Hf]. }
  rewrite saveForm_rejects by (intros E; now rewrite E in Hm).
  cbn [fst snd]. unfold App.showMessage.
  split; [reflexivity|]. split; intros ->; [|reflexivity].
  eexists; split; [reflexivity|]. cbn [App.type App.message].
  split; [reflexivity|].
  destruct (join_In_split ", " _ _ Hm) as (a & b & E).
  rewrite <- (append_empty_r (join ", " (App.missingFields data))).
  now apply (includes_nested _ _ a b).
Qed.

Lemma saveForm_rejects_missing_field_witness :
  fst (App.saveForm (App.mkCallees true true true) 1708000000000
         "2024-02-15T12:26:40.000Z" undated_record App.loaded)
  = App.loaded
  /\ snd (App.saveForm (App.mkCallees true true true) 1708000000000
            "2024-02-15T12:26:40.000Z" undated_record App.loaded)
     = App.Shown
         {| App.message := "Please fill in all required fields: removalDate";
            App.type := "error" |}
  /\ snd (App.saveForm (App.mkCallees false false false) 1708000000000
            "2024-02-15T12:26:40.000Z" undated_record App.loaded)
     = App.Thrown.
Proof.
  destruct (saveForm_rejects_missing_field (App.mkCallees true true true)
              1708000000000 "2024-02-15T12:26:40.000Z" undated_record
              App.loaded "removalDate") as (E & _ & _);
    [simpl; tauto | reflexivity |].
  destruct (saveForm_rejects_missing_field (App.mkCallees false false false)
              1708000000000 "2024-02-15T12:26:40.000Z" undated_record
              App.loaded "removalDate") as (_ & _ & T);
    [simpl; tauto | reflexivity |].
  split; [exact E|]. split; [reflexivity | exact (T eq_refl)].
Defined.

(** X13: when the seven required fields are filled in, [saveForm] appends
    exactly one record to the database, however the calls of the undeclared
    functions end; the record has the clock reading as id, the names of the
    files that were attached, and every property of the form other than
    [timestamp] unchanged.  When [formatTrends] and [formatMFCStats] return,
    the list of attached files is emptied and the handler ends in the call
    of [showMessage] with the success text; when one of them throws (as it
    does while the script declares neither) the attached files stay and the
    handler ends with that exception. *)
Theorem saveForm_appends_the_form callees now stamp data st :
  (forall field, In field App.requiredFields ->
     truthy (App.property_of data field) = true) ->
  exists record,
    App.formDatabase (fst (App.saveForm callees now stamp data st))
    = App.formDatabase st ++ [record]
    /\ id record = Some now
    /\ timestamp record = Some stamp
    /\ attachedFiles record = App.attached st
    /\ (forall field, field <> "timestamp" ->
          App.property_of record field = App.property_of data field)
    /\ (App.formatTrends_returns callees = true ->
        App.formatMFCStats_returns callees = true ->
        App.attached (fst (App.saveForm callees now stamp data st)) = []
        /\ snd (App.saveForm callees now stamp data st)
           = App.showMessage callees
               "Form saved successfully! Backup sent to Slack channel."
               "success"
        /\ (App.showMessage_returns callees = true ->
            snd (App.saveForm callees now stamp data st)
            = App.Shown
                {| App.message :=
                     "Form saved successfully! Backup sent to Slack channel.";
                   App.type := "success" |}))
    /\ (App.formatTrends_returns callees = false
        \/ App.formatMFCStats_returns callees = false ->
        App.attached (fst (App.saveForm callees now stamp data st))
        = App.attached st
        /\ snd (App.saveForm callees now stamp data st) = App.Thrown).
Proof.
  intros H. apply missingFields_nil in H.
  exists (App.with_metadata now stamp (App.attached st) data).
  split; [now apply saveForm_accepts_database|].
  cbn [App.with_metadata id timestamp attachedFiles].
  split; [reflexivity|]. split; [reflexivity|]. split; [apply map_id|].
  split; [|split].
  - intros field Hne. unfold App.property_of.
    cbn [mfc removalDate date taggedBy itemType partNumber removedFrom
         serviceCallId reasonRemove comments timestamp].
    destruct (String.eqb_spec field "timestamp"); [contradiction|].
    reflexivity.
  - intros Ht Hm. rewrite saveForm_accepts by exact H.
    unfold App.updateAnalytics_returns. rewrite Ht, Hm. cbn [andb fst snd].
    split; [reflexivity|]. split; [reflexivity|].
    intros Hs. unfold App.showMessage. now rewrite Hs.
  - intros Hf. rewrite saveForm_accepts by exact H.
    assert (E : App.updateAnalytics_returns callees = false).
    { unfold App.updateAnalytics_returns.
      destruct Hf as [-> | ->]; [reflexivity | apply andb_false_r]. }
    rewrite E. split; reflexivity.
Qed.

Lemma saveForm_appends_the_form_witness :
  exists record,
    App.formDatabase
      (fst (App.saveForm (App.mkCallees true true true) 1708000000000
              "2024-02-15T12:26:40.000Z" both_dates_record
              (App.handleFileSelect ["tag.jpg"] App.loaded)))
    = mockData ++ [record]
    /\ id record = Some 1708000000000%Z
    /\ attachedFiles record = ["tag.jpg"]
    /\ App.attached
         (fst (App.saveForm (App.mkCallees true true true) 1708000000000
                 "2024-02-15T12:26:40.000Z" both_dates_record
                 (App.handleFileSelect ["tag.jpg"] App.loaded)))
       = []
    /\ snd (App.saveForm (App.mkCallees true true true) 1708000000000
              "2024-02-15T12:26:40.000Z" both_dates_record
              (App.handleFileSelect ["tag.jpg"] App.loaded))
       = App.Shown
           {| App.message :=
                "Form saved successfully! Backup sent to Slack channel.";
              App.type := "success" |}.
Proof.
  destruct (saveForm_appends_the_form (App.mkCallees true true true)
              1708000000000 "2024-02-15T12:26:40.000Z" both_dates_record
              (App.handleFileSelect ["tag.jpg"] App.loaded))
    as (record & Edb & Eid & _ & Ef & _ & Hret & _).
  { intros field Hf. simpl in Hf.
    repeat (destruct Hf as [<-|Hf]; [reflexivity|]). destruct Hf. }
  destruct (Hret eq_refl eq_refl) as (Ea & _ & Es).
  exists record. split; [exact Edb|]. split; [exact Eid|].
  split; [exact Ef|]. split; [exact Ea | exact (Es eq_refl)].
Defined.

(** X14: a form that passes the validation shows in the export as one more
    line at the end, with the clock reading as id and [removalDate] in the
    date cell, whatever [date] the form carries. *)
Theorem saved_form_is_the_last_export_line callees now stamp data st :
  (forall field, In field App.requiredFields ->
     truthy (App.property_of data field) = true) ->
  csvContent
    (App.formDatabase (fst (App.saveForm callees now stamp data st)))
  = (csvContent (App.formDatabase st) ++ newline
     ++ join ","
          [ id_cell (Some now); raw (mfc data); raw (removalDate data);
            raw (taggedBy data); raw (itemType data); raw (partNumber data);
            raw (removedFrom data); raw (serviceCallId data);
            raw (reasonRemove data); replace_commas (raw (comments data)) ])%string.
Proof.
  intros H. pose proof (H "removalDate" ltac:(simpl; tauto)) as Hd.
  cbn in Hd. apply missingFields_nil in H.
  rewrite saveForm_accepts_database by exact H.
  rewrite csvContent_snoc. do 2 f_equal.
  unfold csv_line, row_cells, App.with_metadata.
  cbn [id mfc removalDate date taggedBy itemType partNumber removedFrom
       serviceCallId reasonRemove comments].
  unfold logical_or at 1. rewrite Hd. now rewrite !or_empty_raw.
Qed.

Lemma saved_form_is_the_last_export_line_witness :
  csvContent
    (App.formDatabase
       (fst (App.saveForm (App.mkCallees false false false) 1708000000000
               "2024-02-15T12:26:40.000Z" both_dates_record App.loaded)))
  = (csvContent mockData ++ newline
     ++ "1708000000000,HLN01,2024-02-10,J. Doe,Motor,MOT-001,LR0000,,Defected,")%string.
Proof.
  apply (saved_form_is_the_last_export_line (App.mkCallees false false false)
           1708000000000 "2024-02-15T12:26:40.000Z" both_dates_record
           App.loaded).
  intros field Hf. simpl in Hf.
  repeat (destruct Hf as [<-|Hf]; [reflexivity|]). destruct Hf.
Defined.

(** X15: no sequence of file selections, file removals, saves and clears
    removes or changes a stored record: the database afterwards is the
    database before followed by at most one record per save, each with all
    required fields filled in and an id. *)
Theorem database_only_grows events : forall st,
  exists added,
    App.formDatabase (App.run events st) = App.formDatabase st ++ added
    /\ List.length added <= saves events
    /\ Forall (fun r => App.missingFields r = [] /\ exists now, id r = Some now)
         added.
Proof.
  induction events as [|e events IH]; intros st.
  - exists []. cbn. rewrite app_nil_r. repeat split; auto.
  - change (App.run (e :: events) st) with (App.run events (App.handle st e)).
    destruct (IH (App.handle st e)) as (added & E & L & F).
    destruct e as [files|index|callees now stamp data|];
      try (exists added; repeat split; auto; fail).
    cbn [App.handle] in E |- *.
    destruct (App.missingFields data) as [|f fs] eqn:Em.
    + rewrite saveForm_accepts_database in E by exact Em.
      exists (App.with_metadata now stamp (App.attached st) data :: added).
      rewrite E, <- app_assoc. repeat split.
      * unfold saves in *; cbn [filter List.length] in *. lia.
      * constructor; [|exact F]. split.
        -- now rewrite missingFields_with_metadata.
        -- now exists now.
    + rewrite saveForm_rejects in E |- * by (rewrite Em; discriminate).
      cbn [fst] in E |- *. exists added. repeat split; auto.
      unfold saves in *; cbn [filter List.length] in *. lia.
Qed.

(** X16: in every state the page reaches from its loaded state, each
    stored record has a site, a part number, an asset, a reason and a
    removal date or its alias, so that the export never leaves these five
    cells empty. *)
Theorem reachable_records_are_complete events row :
  In row (App.formDatabase (App.run events App.loaded)) ->
  App.complete row = true
  /\ Forall (fun cell => cell <> "")
       [ or_empty (mfc row);
         or_empty (logical_or (removalDate row) (date row));
         or_empty (partNumber row); or_empty (removedFrom row);
         or_empty (reasonRemove row) ].
Proof.
  assert (Hinv : forall evs st,
            Forall (fun r => App.complete r = true) (App.formDatabase st) ->
            Forall (fun r => App.complete r = true)
              (App.formDatabase (App.run evs st))).
  { induction evs as [|e evs IH]; intros st H; [exact H|].
    apply (IH (App.handle st e)). now apply handle_keeps_complete. }
  intros Hin.
  assert (Hc : App.complete row = true).
  { refine (proj1 (Forall_forall _ _) (Hinv events App.loaded _) row Hin).
    repeat constructor. }
  split; [exact Hc|].
  unfold App.complete in Hc.
  repeat (apply andb_prop in Hc as [Hc ?]).
  assert (Hne : forall v, truthy v = true -> or_empty v <> "").
  { intros [s|]; [|discriminate]. unfold or_empty, logical_or.
    intros Ht; rewrite Ht. simpl in Ht.
    destruct (String.eqb_spec s ""); [discriminate | assumption]. }
  repeat constructor; now apply Hne.
Qed.

Lemma reachable_records_are_complete_witness :
  App.complete both_dates_record = true
  /\ Forall (fun cell => cell <> "")
       [ or_empty (mfc both_dates_record);
         or_empty (logical_or (removalDate both_dates_record)
                     (date both_dates_record));
         or_empty (partNumber both_dates_record);
         or_empty (removedFrom both_dates_record);
         or_empty (reasonRemove both_dates_record) ].
Proof.
  apply (reachable_records_are_complete
           [ App.FilesSelected ["tag.jpg"];
             App.SaveForm (App.mkCallees false false false) 1708000000000
               "2024-02-15T12:26:40.000Z" both_dates_record;
             App.RemoveFile 0 ]
           (App.with_metadata 1708000000000 "2024-02-15T12:26:40.000Z"
              ["tag.jpg"] both_dates_record)).
  vm_compute. do 5 right. left. reflexivity.
Defined.

(** X17: [removeFile] with the index of an attached file removes that file
    and no other: the files before it keep their places, the files after it
    move up by one, and the database is not touched. *)
Theorem removeFile_removes_the_indexed_file i st :
  i < List.length (App.attached st) ->
  App.formDatabase (App.removeFile (Z.of_nat i) st) = App.formDatabase st
  /\ App.attached (App.removeFile (Z.of_nat i) st)
     = firstn i (App.attached st) ++ skipn (S i) (App.attached st)
  /\ S (List.length (App.attached (App.removeFile (Z.of_nat i) st)))
     = List.length (App.attached st)
  /\ (forall j, j < i ->
        nth_error (App.attached (App.removeFile (Z.of_nat i) st)) j
        = nth_error (App.attached st) j)
  /\ (forall j, i <= j ->
        nth_error (App.attached (App.removeFile (Z.of_nat i) st)) j
        = nth_error (App.attached st) (S j)).
Proof.
  intros H. cbn [App.removeFile App.formDatabase App.attached].
  rewrite splice_one_in_range by exact H.
  assert (Lf : List.length (firstn i (App.attached st)) = i)
    by (apply firstn_length_le; lia).
  repeat split.
  - rewrite length_app, Lf, length_skipn. lia.
  - intros j Hj. rewrite nth_error_app1 by lia.
    rewrite nth_error_firstn.
    destruct (Nat.ltb_spec j i); [reflexivity | lia].
  - intros j Hj. rewrite nth_error_app2 by lia.
    rewrite Lf, nth_error_skipn. f_equal. lia.
Qed.

Lemma removeFile_removes_the_indexed_file_witness :
  App.attached
    (App.removeFile 1
       {| App.formDatabase := mockData;
          App.attached := ["a.jpg"; "b.jpg"; "c.jpg"] |})
  = ["a.jpg"; "c.jpg"].
Proof.
  destruct (removeFile_removes_the_indexed_file 1
              {| App.formDatabase := mockData;
                 App.attached := ["a.jpg"; "b.jpg"; "c.jpg"] |})
    as (_ & E & _); [simpl; lia | exact E].
Defined.

(** X18: [removeFile] with an index at or past the end of the list changes
    nothing, since [splice] clamps its start to the length. *)
Theorem removeFile_past_the_end_is_a_no_op index st :
  (Z.of_nat (List.length (App.attached st)) <= index)%Z ->
  App.removeFile index st = st.
Proof.
  intros H. unfold App.removeFile.
  rewrite splice_one_past_the_end by exact H. now destruct st.
Qed.

Lemma removeFile_past_the_end_is_a_no_op_witness :
  App.removeFile 3
    {| App.formDatabase := mockData;
       App.attached := ["a.jpg"; "b.jpg"; "c.jpg"] |}
  = {| App.formDatabase := mockData;
       App.attached := ["a.jpg"; "b.jpg"; "c.jpg"] |}.
Proof.
  apply (removeFile_past_the_end_is_a_no_op 3
           {| App.formDatabase := mockData;
              App.attached := ["a.jpg"; "b.jpg"; "c.jpg"] |}).
  simpl; lia.
Defined.

(** X19: selecting files and then removing one of them at the index it got
    leaves the files attached before as they were, followed by the other
    selected files; selecting one file and removing it restores the state. *)
Theorem removing_a_selected_file files i st :
  i < List.length files ->
  App.attached
    (App.removeFile (Z.of_nat (List.length (App.attached st) + i))
       (App.handleFileSelect files st))
  = App.attached st ++ firstn i files ++ skipn (S i) files
  /\ (List.length files = 1 ->
      App.removeFile (Z.of_nat (List.length (App.attached st) + i))
        (App.handleFileSelect files st) = st).
Proof.
  intros H.
  assert (E : App.attached
                (App.removeFile (Z.of_nat (List.length (App.attached st) + i))
                   (App.handleFileSelect files st))
              = App.attached st ++ firstn i files ++ skipn (S i) files).
  { cbn [App.removeFile App.handleFileSelect App.attached].
    rewrite splice_one_in_range by (rewrite length_app; lia).
    rewrite firstn_app_2, skipn_app.
    rewrite (skipn_all2 (App.attached st)) by lia.
    rewrite <- app_assoc. cbn [app]. do 3 f_equal. lia. }
  split; [exact E|].
  intros L. destruct files as [|f [|g files]]; try discriminate.
  assert (i = 0) by (simpl in H; lia); subst i.
  destruct st as [db files]. unfold App.removeFile in E |- *.
  cbn [App.attached App.formDatabase App.handleFileSelect] in E |- *.
  rewrite E. cbn. now rewrite app_nil_r.
Qed.

Lemma removing_a_selected_file_witness :
  App.attached
    (App.removeFile 2
       (App.handleFileSelect ["c.jpg"; "d.jpg"]
          {| App.formDatabase := mockData;
             App.attached := ["a.jpg"; "b.jpg"] |}))
  = ["a.jpg"; "b.jpg"; "d.jpg"].
Proof.
  destruct (removing_a_selected_file ["c.jpg"; "d.jpg"] 0
              {| App.formDatabase := mockData;
                 App.attached := ["a.jpg"; "b.jpg"] |})
    as (E & _); [simpl; lia | exact E].
Defined.

(** ** The panels of the dashboard and the list of attached files *)

(** The head of a ranked list over plain keys. *)
Lemma ranked_head_plain Date_parse LocalTZA now rk data :
  data <> [] ->
  forallb plain (keys_of (selector_of rk) data) = true ->
  let ks := keys_of (selector_of rk) data in
  exists k rest,
    list_of rk (performAIAnalysis Date_parse LocalTZA now data)
    = {| name := k; count := Num (count_occ string_dec ks k) |} :: rest
    /\ In k ks
    /\ forall k', count_occ string_dec ks k' <= count_occ string_dec ks k.
Proof.
  intros Hne Hp ks. destruct data as [|r data]; [congruence|].
  destruct (list_of_nonempty Date_parse LocalTZA now rk r data)
    as (n & E & Hn).
  fold ks in E, Hn, Hp. rewrite E.
  set (full := ranked (tally ks [])) in *.
  assert (Hs : StronglySorted count_ge full) by now apply ranked_sorted_plain.
  assert (Hlen : List.length full = distinct ks).
  { unfold full.
    now rewrite (Permutation_length (ranked_perm _)), tally_length_distinct. }
  assert (Hd : 0 < distinct ks).
  { unfold distinct, ks.
    destruct (nodup string_dec (keys_of (selector_of rk) (r :: data)))
      as [|z l] eqn:Z; [|simpl; lia].
    assert (I : In (ToPropertyKey (selector_of rk r))
                  (nodup string_dec (keys_of (selector_of rk) (r :: data))))
      by (apply nodup_In; now left).
    now rewrite Z in I. }
  assert (Hn0 : 0 < n).
  { destruct (limit_of rk) as [m|] eqn:Em; subst n.
    - destruct rk; simpl in Em; try discriminate; injection Em as <-; lia.
    - fold full. lia. }
  destruct full as [|[k p] full'] eqn:Ef; [simpl in Hlen; lia|].
  destruct n as [|n']; [lia|].
  assert (Hin : In (k, p) (tally ks [])).
  { apply (Permutation_in _ (ranked_perm _)). fold full. rewrite Ef.
    now left. }
  destruct (tally_entry_plain ks k p Hp Hin) as [Hk ->].
  exists k, (map to_entry (firstn n' full')).
  split; [reflexivity|]. split; [exact Hk|].
  intros k'. destruct (in_dec string_dec k' ks) as [Hk'|Hk'].
  - assert (Hin' : In (k', Num (count_occ string_dec ks k')) full).
    { apply (Permutation_in _ (Permutation_sym (ranked_perm _))).
      now apply tally_has_key_plain. }
    rewrite Ef in Hin'. destruct Hin' as [Heq|Hin'].
    + injection Heq as -> _. lia.
    + inversion Hs as [|? ? _ Hall]; subst.
      rewrite Forall_forall in Hall. exact (Hall _ Hin').
  - apply (count_occ_not_In string_dec) in Hk'. rewrite Hk'. lia.
Qed.

Lemma highlights_head ns ks k rest :
  In k ks ->
  (forall k', count_occ string_dec ks k' <= count_occ string_dec ks k) ->
  highlights_a_most_frequent ns ks
    (formatTopItems ns
       ({| name := k; count := Num (count_occ string_dec ks k) |} :: rest)).
Proof.
  intros Hk Hm. exists k, (join "" (map (later_block ns) rest)).
  split; [|split; assumption].
  unfold formatTopItems. cbn [no_data count strict_eq_zero].
  apply (count_occ_In string_dec) in Hk.
  destruct (count_occ string_dec ks k) as [|c] eqn:Ec; [lia|].
  unfold mapi; cbn [mapi_from]. rewrite mapi_from_later.
  destruct rest as [|e rest]; [simpl; now rewrite append_empty_r|].
  reflexivity.
Qed.

Lemma In_mapi_from_nth {A B : Type} (f : A -> nat -> B) x l : forall k i,
  nth_error l i = Some x -> In (f x (k + i)) (mapi_from k f l).
Proof.
  induction l as [|y l IH]; intros k [|i] H; try discriminate.
  - injection H as ->. rewrite Nat.add_0_r. now left.
  - right. replace (k + S i) with (S k + i) by lia. now apply IH.
Qed.

Lemma chip_button file i :
  exists pre post,
    chip file i
    = (pre ++ ("removeFile(" ++ string_of_Z (Z.of_nat i) ++ ")") ++ post)%string.
Proof.
  exists ("<span style=" ++ dquote
          ++ "display: inline-block; margin: 5px; padding: 5px 10px; background: #e3f2fd; border-radius: 15px; font-size: 14px; border: 1px solid #1976d2;"
          ++ dquote ++ ">" ++ newline
          ++ "                " ++ file ++ " " ++ newline
          ++ "                <button onclick=" ++ dquote)%string.
  exists (dquote ++ " style=" ++ dquote
          ++ "border: none; background: none; color: #d32f2f; cursor: pointer; font-weight: bold;"
          ++ dquote ++ ">" ++ times ++ "</button>" ++ newline
          ++ "            </span>")%string.
  unfold chip. rewrite !append_assoc. reflexivity.
Qed.

(** X20: after [updateAnalytics] on a database none of whose part numbers
    (assets) names a property inherited from [Object.prototype], the part
    (asset) panel of the dashboard starts with the highlighted block of a
    most frequent part number (asset), with the number of records that carry
    it as count. *)
Theorem dashboard_highlights_the_most_frequent
    (Date_parse : string -> option Z) (LocalTZA : Z -> bool -> Z)
    (native_source : string -> string) (now : Z) (st : App.State) :
  App.formDatabase st <> [] ->
  let panels := updateAnalytics Date_parse LocalTZA native_source now st in
  (forallb plain (keys_of partNumber (App.formDatabase st)) = true ->
   highlights_a_most_frequent native_source
     (keys_of partNumber (App.formDatabase st)) (topParts_panel panels))
  /\ (forallb plain (keys_of removedFrom (App.formDatabase st)) = true ->
      highlights_a_most_frequent native_source
        (keys_of removedFrom (App.formDatabase st)) (topAssets_panel panels)).
Proof.
  intros Hne panels. subst panels. unfold updateAnalytics.
  cbn [topParts_panel topAssets_panel]. split; intros Hp.
  - destruct (ranked_head_plain Date_parse LocalTZA now TopParts _ Hne Hp)
      as (k & rest & E & Hk & Hm).
    cbn [list_of selector_of] in E, Hk, Hm. rewrite E.
    now apply highlights_head.
  - destruct (ranked_head_plain Date_parse LocalTZA now TopAssets _ Hne Hp)
      as (k & rest & E & Hk & Hm).
    cbn [list_of selector_of] in E, Hk, Hm. rewrite E.
    now apply highlights_head.
Qed.

Lemma dashboard_highlights_the_most_frequent_witness :
  highlights_a_most_frequent Host.v8_source (keys_of partNumber mockData)
    (topParts_panel
       (updateAnalytics Host.iso_date_parse Host.utc Host.v8_source
          mid_february_2024 App.loaded)).
Proof.
  destruct (dashboard_highlights_the_most_frequent Host.iso_date_parse
              Host.utc Host.v8_source mid_february_2024 App.loaded)
    as [H _]; [discriminate|].
  apply H. reflexivity.
Defined.

(** X21: the list [updateFileList] writes is empty exactly when no file is
    attached; otherwise it holds, for the file at each position, a chip with
    the name of the file and a button that calls [removeFile] with that
    position, so that the button removes the file it stands next to. *)
Theorem file_chips_carry_their_index st :
  (updateFileList st = "" <-> App.attached st = [])
  /\ forall i file,
       nth_error (App.attached st) i = Some file ->
       includes (chip file i) (updateFileList st) = true
       /\ includes ("removeFile(" ++ string_of_Z (Z.of_nat i) ++ ")")
            (chip file i) = true
       /\ App.attached (App.removeFile (Z.of_nat i) st)
          = firstn i (App.attached st) ++ skipn (S i) (App.attached st).
Proof.
  split.
  - unfold updateFileList. destruct (App.attached st) as [|f l].
    + split; reflexivity.
    + split; discriminate.
  - intros i file H. split; [|split].
    + unfold updateFileList.
      destruct (App.attached st) as [|f l] eqn:E; [now destruct i|].
      cbn [List.length Nat.eqb].
      pose proof (In_mapi_from_nth chip file (f :: l) 0 i H) as Hin.
      destruct (join_In_split "" _ _ Hin) as (pre & post & Ej).
      fold (mapi chip (f :: l)) in Ej. rewrite Ej.
      rewrite <- append_assoc. apply includes_append.
    + destruct (chip_button file i) as (pre & post & E). rewrite E.
      apply includes_append.
    + cbn [App.removeFile App.attached].
      apply splice_one_in_range. apply nth_error_Some. congruence.
Qed.

Lemma file_chips_carry_their_index_witness :
  includes (chip "b.jpg" 1)
    (updateFileList
       {| App.formDatabase := mockData; App.attached := ["a.jpg"; "b.jpg"] |})
  = true.
Proof.
  destruct (file_chips_carry_their_index
              {| App.formDatabase := mockData;
                 App.attached := ["a.jpg"; "b.jpg"] |}) as [_ H].
  destruct (H 1 "b.jpg") as [E _]; [reflexivity | exact E].
Defined.

(** ** Lines of the export, counts after a save *)

Lemma split_lines_from_length s : forall cur,
  List.length (split_lines_from cur s) = S (count_char LF s).
Proof.
  induction s as [|c s IH]; intros cur; simpl; [reflexivity|].
  destruct (Ascii.eqb c LF); simpl; now rewrite IH.
Qed.

Lemma csv_line_line_feeds row :
  count_char LF (csv_line row) = line_feeds_in (exported_texts row).
Proof.
  unfold csv_line, row_cells. rewrite count_char_join.
  unfold line_feeds_in, exported_texts. cbn [map List.length].
  rewrite count_char_id_cell by reflexivity.
  rewrite count_char_replace_commas_other by discriminate.
  rewrite !or_empty_raw.
  change (count_char LF ",") with 0.
  unfold list_sum; cbn [fold_right]. lia.
Qed.

(** X22: the export holds one line feed per record plus the line feeds
    typed into the nine text properties, so that splitting it at line feeds
    gives the header line, one line per record and one more line for every
    line feed inside a property. *)
Theorem export_line_count formDatabase :
  List.length (split_lines (csvContent formDatabase))
  = 1 + List.length formDatabase
    + list_sum (map (fun row => line_feeds_in (exported_texts row))
                  formDatabase).
Proof.
  unfold split_lines. rewrite split_lines_from_length.
  unfold csvContent. rewrite count_char_join.
  change (count_char LF newline) with 1.
  cbn [map list_sum]. change (count_char LF (join "," headers)) with 0.
  rewrite length_map, map_map.
  rewrite (map_ext _ _ csv_line_line_feeds).
  unfold list_sum at 1. cbn [fold_right]. fold (list_sum
    (map (fun row => line_feeds_in (exported_texts row)) formDatabase)).
  lia.
Qed.

(** X23: after a save that passes the validation, the analysis counts one
    record more, and one recent record more exactly when the saved form is
    recent by [date || removalDate]; the trend counts of a rejected save are
    those of the database before. *)
Theorem save_updates_the_trend_counts
    (Date_parse : string -> option Z) (LocalTZA : Z -> bool -> Z)
    (callees : App.Callees) (now : Z) (stamp : string)
    (data : SubmissionRecord) (st : App.State) :
  let before_ :=
    trends (performAIAnalysis Date_parse LocalTZA now (App.formDatabase st)) in
  let after :=
    trends (performAIAnalysis Date_parse LocalTZA now
              (App.formDatabase
                 (fst (App.saveForm callees now stamp data st)))) in
  (App.missingFields data = [] ->
   totalCount after = S (totalCount before_)
   /\ recentCount after
      = recentCount before_
        + (if is_recent Date_parse LocalTZA now data then 1 else 0))
  /\ (App.missingFields data <> [] -> after = before_).
Proof.
  intros before_ after. subst before_ after. split; intros H.
  - rewrite saveForm_accepts_database by exact H.
    destruct (trends_counts Date_parse LocalTZA now
                (App.formDatabase st
                 ++ [App.with_metadata now stamp (App.attached st) data]))
      as [-> ->].
    destruct (trends_counts Date_parse LocalTZA now (App.formDatabase st))
      as [-> ->].
    rewrite filter_app, !length_app. cbn [filter List.length].
    change (is_recent Date_parse LocalTZA now
              (App.with_metadata now stamp (App.attached st) data))
      with (is_recent Date_parse LocalTZA now data).
    destruct (is_recent Date_parse LocalTZA now data); simpl; lia.
  - now rewrite saveForm_rejects by exact H.
Qed.

Lemma save_updates_the_trend_counts_witness :
  totalCount
    (trends
       (performAIAnalysis Host.iso_date_parse Host.utc mid_february_2024
          (App.formDatabase
             (fst (App.saveForm (App.mkCallees true true true)
                     mid_february_2024 "2024-02-15T12:26:40.000Z"
                     both_dates_record App.loaded)))))
  = 6.
Proof.
  destruct (save_updates_the_trend_counts Host.iso_date_parse Host.utc
              (App.mkCallees true true true) mid_february_2024
              "2024-02-15T12:26:40.000Z" both_dates_record App.loaded)
    as [H _].
  destruct H as [E _]; [reflexivity | exact E].
Defined.
